(** * pyc2ray.c2ray_fstar: a shallow embedding of the [C2Ray_fstar] class

    The class of [src/pyc2ray/c2ray_fstar.py] turns N-body halo catalogs
    into a gridded field of ionizing sources and initialises the material
    fields of the simulation.  Its methods are embedded here as programs of
    a state-and-exception monad over a [world]: the object [self], the heap
    of numpy arrays bound to its attributes, and the lines reported on the
    log.

    Numbers.  numpy's float64 is idealised as the exact rationals [Q]: the
    arithmetic of the source is kept operation for operation, rounding,
    [inf] and [nan] are left out.  Equalities between computed numbers are
    stated with [==] ([Qeq]). *)

From Stdlib Require Import QArith Qround ZArith String Ascii List Lia Lqa.
From stdpp Require Import base gmap strings list.

Open Scope Q_scope.

(** ** Python values, exceptions *)

(** A scalar read from the YAML parameter file. *)
Inductive value :=
| VNum (q : Q)
| VStr (s : string).

(** The exceptions the modelled code can raise. *)
Inductive exn :=
| UnboundLocalError (name : string)
| AttributeError (name : string)
| KeyError (key : string)
| KeyErrorQ (key : Q)
| IndexError
| TypeError
| ValueError
| MalformedCatalog
| External_error (what : string).

Inductive result (A : Type) :=
| Raise (e : exn)
| Return (a : A).
Arguments Raise {A} e.
Arguments Return {A} a.

(** An array as numpy hands it over: [np.loadtxt] squeezes, so a file of
    one row (or one column) comes back one-dimensional. *)
Inductive ndarray :=
| Arr1 (xs : list Q)
| Arr2 (rows : list (list Q)).

(** A numpy operand: a Python float or a one-dimensional array. *)
Inductive ndval :=
| Scalar (q : Q)
| Arr (xs : list Q).

(** What an attribute assigned by this class can be bound to: [None], a
    scalar, a reference to an array object of the heap (the mutable
    material fields), an immutable table read from a file, or a dict of
    parameters. *)
Inductive pyval :=
| PNone
| PVal (v : value)
| PArr (l : nat)
| PTable (t : ndarray)
| PDict (d : gmap string value).

(** ** Strings: [str.lower] and [str.endswith] on ASCII text *)

Definition lower_ascii (c : ascii) : ascii :=
  let n := nat_of_ascii c in
  if (Nat.leb 65 n && Nat.leb n 90)%bool then ascii_of_nat (n + 32) else c.

Fixpoint lower (s : string) : string :=
  match s with
  | EmptyString => EmptyString
  | String c s' => String (lower_ascii c) (lower s')
  end.

Definition endswith (s suffix : string) : bool :=
  let n := String.length s in
  let k := String.length suffix in
  (Nat.leb k n && String.eqb (substring (n - k) k s) suffix)%bool.

(** [x in [s1, ..., sn]] on strings. *)
Definition str_in (x : string) (xs : list string) : bool :=
  existsb (String.eqb x) xs.

(** ** numpy on rationals *)

Definition Qltb (x y : Q) : bool := negb (Qle_bool y x).

Definition np_sum (xs : list Q) : Q := fold_right Qplus 0 xs.

Definition np_mean (xs : list Q) : Q :=
  np_sum xs / inject_Z (Z.of_nat (length xs)).

(** [a.min()] and [a.max()] raise ValueError on an array of size zero. *)
Definition np_min (xs : list Q) : result Q :=
  match xs with
  | [] => Raise ValueError
  | x :: rest => Return (fold_left (fun m y => if Qltb y m then y else m) rest x)
  end.

Definition np_max (xs : list Q) : result Q :=
  match xs with
  | [] => Raise ValueError
  | x :: rest => Return (fold_left (fun m y => if Qltb m y then y else m) rest x)
  end.

(** Elementwise product of two one-dimensional arrays with numpy's
    broadcasting: equal lengths, or one side of length one. *)
Definition np_mul_arrays (xs ys : list Q) : result (list Q) :=
  if Nat.eqb (length xs) (length ys) then Return (zip_with Qmult xs ys)
  else match xs, ys with
       | [x], _ => Return (map (Qmult x) ys)
       | _, [y] => Return (map (fun x => x * y) xs)
       | _, _ => Raise ValueError
       end.

(** [a * b] for two numpy operands. *)
Definition np_mul (a b : ndval) : result ndval :=
  match a, b with
  | Scalar x, Scalar y => Return (Scalar (x * y))
  | Scalar x, Arr ys => Return (Arr (map (Qmult x) ys))
  | Arr xs, Scalar y => Return (Arr (map (fun x => x * y) xs))
  | Arr xs, Arr ys =>
      match np_mul_arrays xs ys with
      | Return zs => Return (Arr zs)
      | Raise e => Raise e
      end
  end.

(** [a * xs] for a numpy operand [a] and an array [xs]: an array. *)
Definition np_mul_arr (a : ndval) (xs : list Q) : result (list Q) :=
  match a with
  | Scalar x => Return (map (Qmult x) xs)
  | Arr ys => np_mul_arrays ys xs
  end.

(** ** The object and its world *)

(** [self.cosmology]: an astropy [FlatLambdaCDM]; [cosmo_H z] stands for
    [H(z).cgs.value] and [critical_density0] for its cgs value. *)
Record Cosmology := {
  Ob0 : Q;
  Om0 : Q;
  cosmo_h : Q;
  cosmo_H : Q -> Q;
  critical_density0 : Q
}.

(** A [C2Ray_fstar] object.  The fields are the attributes the base class
    sets before any method below runs ([Nmesh] is [self.N]); [attrs] is the
    rest of the instance dictionary, holding under its name every attribute
    that the methods below assign ([fstar_kind], [fstar_dpl], [alph_h],
    [ndens], [xh], ...) and nothing for one not assigned yet. *)
Record C2Ray_fstar := {
  rank : Z;
  boxsize : Q;
  Nmesh : Z;
  shape : list nat;
  cosmology : Cosmology;
  sources_basename : string;
  density_basename : string;
  results_basename : string;
  resume : Z;
  zred_0 : Q;
  mean_molecular : Q;
  _ld : gmap string (gmap string value);
  attrs : gmap string pyval
}.

(** One argument of a formatted log line. *)
Inductive logarg :=
| LNum (q : Q)
| LInt (n : Z)
| LStr (s : string)
| LVal (v : value)
| LPy (p : pyval)
| LDict (d : gmap string value).

(** Observable output: [self.printlog], [print], and the files written. *)
Inductive report :=
| Printlog (template : string) (args : list logarg)
| Printed (template : string) (args : list logarg)
| MakeDirs (path : string)
| Hdf5File (fname : string) (sources_positions : list (list Z))
            (sources_mass : list Q) (z h : Q) (numhalo : nat).

Record world := {
  self : C2Ray_fstar;
  heap : list (list Q);
  stdout : list report
}.

(** ** The monad of methods *)

Definition M (A : Type) : Type := world -> result A * world.

#[global] Instance M_ret : MRet M := fun A a w => (Return a, w).

#[global] Instance M_bind : MBind M := fun A B f m w =>
  match m w with
  | (Return a, w') => f a w'
  | (Raise e, w') => (Raise e, w')
  end.

Definition raise {A} (e : exn) : M A := fun w => (Raise e, w).

Definition lift {A} (r : result A) : M A := fun w => (r, w).

Definition get_self : M C2Ray_fstar := fun w => (Return (self w), w).

(** [self.name] for an attribute held in the instance dictionary. *)
Definition getattr (name : string) : M pyval :=
  fun w => match attrs (self w) !! name with
           | Some a => (Return a, w)
           | None => (Raise (AttributeError name), w)
           end.

(** [self.name = v] *)
Definition setattr (name : string) (v : pyval) : M unit :=
  fun w => (Return tt,
            {| self := {| rank := rank (self w); boxsize := boxsize (self w);
                          Nmesh := Nmesh (self w); shape := shape (self w);
                          cosmology := cosmology (self w);
                          sources_basename := sources_basename (self w);
                          density_basename := density_basename (self w);
                          results_basename := results_basename (self w);
                          resume := resume (self w); zred_0 := zred_0 (self w);
                          mean_molecular := mean_molecular (self w);
                          _ld := _ld (self w);
                          attrs := <[name := v]> (attrs (self w)) |};
               heap := heap w; stdout := stdout w |}).

Definition emit (r : report) : M unit :=
  fun w => (Return tt, {| self := self w; heap := heap w; stdout := stdout w ++ [r] |}).

(** A new array object; its reference is its index in the heap. *)
Definition alloc (a : list Q) : M nat :=
  fun w => (Return (length (heap w)),
            {| self := self w; heap := heap w ++ [a]; stdout := stdout w |}).

Definition load (l : nat) : M (list Q) :=
  fun w => match heap w !! l with
           | Some a => (Return a, w)
           | None => (Raise (External_error "dangling array"), w)
           end.

(** Writing through a reference: the object changes, the reference stays. *)
Definition store (l : nat) (a : list Q) : M unit :=
  fun w => (Return tt, {| self := self w; heap := <[l := a]> (heap w); stdout := stdout w |}).

(** [d[key]] on a dict. *)
Definition dict_get {V} (d : gmap string V) (key : string) : M V :=
  match d !! key with
  | Some v => mret v
  | None => raise (KeyError key)
  end.

(** A value used in float arithmetic; anything but a number is a
    TypeError. *)
Definition as_num (v : value) : M Q :=
  match v with
  | VNum q => mret q
  | VStr _ => raise TypeError
  end.

Definition py_num (p : pyval) : M Q :=
  match p with
  | PVal v => as_num v
  | _ => raise TypeError
  end.

(** An attribute used as a numpy array: [None] is a TypeError. *)
Definition py_array (p : pyval) : M nat :=
  match p with
  | PArr l => mret l
  | _ => raise TypeError
  end.

(** An attribute subscripted with a string key. *)
Definition py_dict (p : pyval) : M (gmap string value) :=
  match p with
  | PDict d => mret d
  | _ => raise TypeError
  end.

(** A method run from a world satisfying [P] either returns a value and a
    world related by [Q], or raises an exception satisfying [E].  Methods
    are total functions of the world, so [E := fun _ => False] states that
    the method returns. *)
Definition hoare {A} (P : world -> Prop) (m : M A) (Q : A -> world -> Prop)
           (E : exn -> Prop) : Prop :=
  forall w, P w ->
    match m w with
    | (Return a, w') => Q a w'
    | (Raise e, _) => E e
    end.

(** A method that, from a world satisfying [P], leaves the world as it was
    when it returns, and raises only exceptions satisfying [E]. *)
Definition reads {A} (P : world -> Prop) (m : M A) (E : exn -> Prop) : Prop :=
  forall w, P w ->
    match m w with
    | (Return a, w') => w' = w
    | (Raise e, _) => E e
    end.

(** A condition on the object alone, whatever the heap and the log. *)
Definition on_self (J : C2Ray_fstar -> Prop) : world -> Prop := fun w => J (self w).

(** Any exception but the AttributeError of the attribute [name]. *)
Definition not_missing (name : string) (e : exn) : Prop := e <> AttributeError name.

(** ** External collaborators

    Everything the class imports and this file does not contain: constants
    of [c2ray_base] and [source_model], numpy's transcendental functions,
    the file readers, the helpers of [pyc2ray.utils], the base class's
    [zred2time], and printf-style formatting of numbers. *)

(** An [.hdf5] halo catalog: attribute [h], datasets [mass] and [pos]. *)
Record hdf5_catalog := {
  attrs_h : Q;
  ds_mass : list Q;
  ds_pos : list (list Q)
}.

(** What [t2c.HaloCubeP3MFull] answers to [get(var='m')] and
    [get(var='pos')]. *)
Record cubep3m_catalog := {
  get_m : list Q;
  get_pos : list (list Q)
}.

(** The keyword arguments of [SourceModel(...)]. *)
Module SM.
Record t := {
  Nion : value; f0 : value; Mt : value; Mp : value;
  g1 : value; g2 : value; g3 : value; g4 : value;
  f0_esc : value; Mp_esc : value; al_esc : value
}.
End SM.

Class External := {
  msun2g : Q;
  m_p : Q;
  YEAR : Q;
  (** [np.log x] and [10**y] *)
  np_log : Q -> Q;
  pow10 : Q -> Q;
  (** what cell [i] of an [np.empty] array happens to hold *)
  uninitialised : nat -> Q;
  np_loadtxt : string -> ndarray;
  np_load : string -> list Q;
  h5py_File : string -> hdf5_catalog;
  HaloCubeP3MFull : string -> Q -> cubep3m_catalog;
  read_cbin : string -> Z -> list Q;
  (** [t2c.Pkdgrav3data(boxsize, N, Omega_m).load_density_field(file)] *)
  load_density_field : Q -> Z -> Q -> string -> list Q;
  (** [pd.read_csv(parfile, index_col=0)]: the index and the row of each line *)
  pd_read_csv : string -> list (Q * list Q);
  os_path_exists : string -> bool;
  get_extension_in_folder : string -> string;
  get_redshifts_from_output : string -> list Q;
  find_bins : Q -> ndarray -> result (Q * Q);
  zred2time : Q -> Q;
  (** ['%.3f' % x] and ['%05d' % n] *)
  fmt_3f : Q -> string;
  fmt_05d : Z -> string;
  (** [model.f_star.deterministic(mhalo)['fstar']] and
      [model.f_esc.deterministic(mhalo)['fesc']] *)
  f_star_deterministic : SM.t -> list Q -> list Q;
  f_esc_deterministic : SM.t -> list Q -> list Q;
  (** how [Halo2Grid] brings an out-of-range cell index back into
      [0 .. n_grid - 1] *)
  into_range : Z -> Z -> Z
}.

(** ** [Halo2Grid] *)

(** Modelled from the spec: the class [Halo2Grid] of [pyc2ray.source_model],
    which [ionizing_flux] uses and [src/] does not contain.  Section 4.3 of
    the specification (GridProjector): a halo at position [x] falls on each
    axis in cell [floor(x / (box_len / n_grid))], brought into the valid
    range; the values of the halos of one cell are summed; the occupied
    cells are listed once each, in the order in which they were first
    occupied; arrays of different lengths are a malformed catalog
    (Section 7). *)
Module Halo2Grid.

Record t := {
  box_len : Q;
  n_grid : Z;
  pos_grid : list (list Z);
  halo_mass : list Q
}.

Definition init (box_len : Q) (n_grid : Z) : t :=
  {| box_len := box_len; n_grid := n_grid; pos_grid := []; halo_mass := [] |}.

Definition cell_axis `{!External} (hg : t) (x : Q) : Z :=
  into_range (n_grid hg) (Qfloor (x / (box_len hg / inject_Z (n_grid hg)))).

Definition set_halo_pos `{!External} (hg : t) (pos : list (list Q)) : t :=
  {| box_len := box_len hg; n_grid := n_grid hg;
     pos_grid := map (map (cell_axis hg)) pos; halo_mass := halo_mass hg |}.

Definition set_halo_mass (hg : t) (mass : list Q) : t :=
  {| box_len := box_len hg; n_grid := n_grid hg;
     pos_grid := pos_grid hg; halo_mass := mass |}.

Definition cell_eqb (c d : list Z) : bool := bool_decide (c = d).

(** Add [v] to the entry of cell [c], or open one at the end. *)
Fixpoint add_to_cell (binned : list (list Z * Q)) (c : list Z) (v : Q)
  : list (list Z * Q) :=
  match binned with
  | [] => [(c, v)]
  | (d, s) :: rest =>
      if cell_eqb c d then (d, s + v) :: rest
      else (d, s) :: add_to_cell rest c v
  end.

(** One halo, given as its cell and its value, enters the binned values. *)
Definition step (binned : list (list Z * Q)) (cv : list Z * Q) : list (list Z * Q) :=
  add_to_cell binned (fst cv) (snd cv).

Definition bin (pos_grid : list (list Z)) (values : list Q) : list (list Z * Q) :=
  fold_left step (zip pos_grid values) [].

Definition value_on_grid (hg : t) (pos_grid : list (list Z)) (values : list Q)
  : result (list (list Z * Q)) :=
  if Nat.eqb (length pos_grid) (length values)
  then Return (bin pos_grid values)
  else Raise MalformedCatalog.

Definition halo_value_on_grid (hg : t) (values : list Q)
           (binned_value : list (list Z * Q)) : list (list Z) * list Q :=
  (map fst binned_value, map snd binned_value).

End Halo2Grid.

(** The sum of the values of the halos of cell [c], for halos given as
    (cell, value) pairs: what the entry of [c] is to be compared with. *)
Fixpoint sum_in_cell (c : list Z) (entries : list (list Z * Q)) : Q :=
  match entries with
  | [] => 0
  | (d, v) :: rest =>
      if Halo2Grid.cell_eqb c d then v + sum_in_cell c rest else sum_in_cell c rest
  end.

(** ** The methods of [C2Ray_fstar] *)

(** [kind.lower()]: only a string has the method. *)
Definition py_lower (p : pyval) : M string :=
  match p with
  | PVal (VStr k) => mret (lower k)
  | _ => raise (AttributeError "lower")
  end.

(** [fstar_model] up to its [return]: the local variables [fstar] and
    [fesc] as the branches leave them, [None] for a local never assigned. *)
Definition fstar_model_locals `{!External} (mhalo : list Q)
  : M (option ndval * option ndval) :=
  s ← get_self;
  kind ← getattr "fstar_kind";
  k ← py_lower kind;
  if str_in k ["fgamma"; "f_gamma"; "mass_independent"]%string then
    mret (Some (Scalar (Ob0 (cosmology s) / Om0 (cosmology s))), None)
  else if str_in k ["dpl"; "mass_dependent"]%string then
    d ← getattr "fstar_dpl" ≫= py_dict;
    vNion ← dict_get d "Nion";
    vf0 ← dict_get d "f0";
    vMt ← dict_get d "Mt";
    vMp ← dict_get d "Mp";
    vg1 ← dict_get d "g1";
    vg2 ← dict_get d "g2";
    vg3 ← dict_get d "g3";
    vg4 ← dict_get d "g4";
    vf0_esc ← dict_get d "f0_esc";
    vMp_esc ← dict_get d "Mp_esc";
    val_esc ← dict_get d "al_esc";
    let model := {| SM.Nion := vNion; SM.f0 := vf0; SM.Mt := vMt; SM.Mp := vMp;
                    SM.g1 := vg1; SM.g2 := vg2; SM.g3 := vg3; SM.g4 := vg4;
                    SM.f0_esc := vf0_esc; SM.Mp_esc := vMp_esc;
                    SM.al_esc := val_esc |} in
    mret (Some (Arr (f_star_deterministic model mhalo)),
          Some (Arr (f_esc_deterministic model mhalo)))
  else
    emit (Printed "{kind} fstar model is not implemented." [LPy kind]);;
    mret (None, None).

(** [return fstar, fesc]: reading a local that was never assigned raises
    UnboundLocalError, [fstar] being read first. *)
Definition fstar_model `{!External} (mhalo : list Q) : M (ndval * ndval) :=
  locals ← fstar_model_locals mhalo;
  match locals with
  | (None, _) => raise (UnboundLocalError "fstar")
  | (Some _, None) => raise (UnboundLocalError "fesc")
  | (Some fstar, Some fesc) => mret (fstar, fesc)
  end.

(** The two masked assignments of the [.txt] branch, on one coordinate:
    [a[a > boxsize] = boxsize - a[a > boxsize]], then
    [a[a < 0.] = boxsize + a[a < 0.]]. *)
Definition wrap_high (boxsize c : Q) : Q :=
  if Qltb boxsize c then boxsize - c else c.

Definition wrap_low (boxsize c : Q) : Q :=
  if Qltb c 0 then boxsize + c else c.

Definition wrap (boxsize c : Q) : Q := wrap_low boxsize (wrap_high boxsize c).

(** [hl[:,0]] and [hl[:,1:]] on the rows of a two-dimensional array. *)
Fixpoint column0 (rows : list (list Q)) : result (list Q) :=
  match rows with
  | [] => Return []
  | [] :: _ => Raise IndexError
  | (x :: _) :: rest =>
      match column0 rest with
      | Return xs => Return (x :: xs)
      | Raise e => Raise e
      end
  end.

Definition columns_from1 (rows : list (list Q)) : list (list Q) := map (drop 1) rows.

Definition read_haloes `{!External} (halo_file : string) (box_len : Q)
  : M (list (list Q) * list Q) :=
  s ← get_self;
  if endswith halo_file ".hdf5" then
    let f := h5py_File halo_file in
    let h := attrs_h f in
    let srcmass_msun := map (fun m => m / h) (ds_mass f) in
    let srcpos_mpc := map (map (fun c => c / h)) (ds_pos f) in
    mret (srcpos_mpc, srcmass_msun)
  else if endswith halo_file ".dat" then
    let hl := HaloCubeP3MFull halo_file box_len in
    h ← getattr "h" ≫= py_num;
    let srcmass_msun := map (fun m => m / h) (get_m hl) in
    let srcpos_mpc := map (map (fun c => c / h)) (get_pos hl) in
    mret (srcpos_mpc, srcmass_msun)
  else if endswith halo_file ".txt" then
    match np_loadtxt halo_file with
    | Arr1 _ => raise IndexError
    | Arr2 hl =>
        col0 ← lift (column0 hl);
        let srcmass_msun := map (fun m => m / cosmo_h (cosmology s)) col0 in
        let shifted := map (map (fun c => c + boxsize s / 2)) (columns_from1 hl) in
        let high := map (map (wrap_high (boxsize s))) shifted in
        let low := map (map (wrap_low (boxsize s))) high in
        let srcpos_mpc := map (map (fun c => c / cosmo_h (cosmology s))) low in
        mret (srcpos_mpc, srcmass_msun)
    end
  else raise (UnboundLocalError "srcpos_mpc").

Definition S_star_ref : Q := inject_Z (10 ^ 48).

(** [ionizing_flux(file, z, save_Mstar)] is embedded in the three stages of
    its body, in the order of the source. *)

(** Lines 93-105: the halos of the catalog, their stellar mass, and its
    projection on the grid, as the pair [(srcpos, srcmstar)]. *)
Definition stellar_mass_on_grid `{!External} (file : string)
  : M (list (list Z) * list Q) :=
  s ← get_self;
  let box_len := boxsize s in
  let n_grid := Nmesh s in
  '(srcpos_mpc, srcmass_msun) ← read_haloes (sources_basename s +:+ file) box_len;
  '(fstar, fesc) ← fstar_model srcmass_msun;
  fesc_fstar ← lift (np_mul fesc fstar);
  mstar_msun ← lift (np_mul_arr fesc_fstar srcmass_msun);
  let h := cosmo_h (cosmology s) in
  let hg := Halo2Grid.init (box_len / h) n_grid in
  let hg := Halo2Grid.set_halo_pos hg srcpos_mpc in
  let hg := Halo2Grid.set_halo_mass hg mstar_msun in
  binned_mstar ← lift (Halo2Grid.value_on_grid hg (Halo2Grid.pos_grid hg) mstar_msun);
  mret (Halo2Grid.halo_value_on_grid hg mstar_msun binned_mstar).

(** Lines 107-125: [if save_Mstar: ...]; [None] stands for the default
    [save_Mstar=False], and the empty string is as false. *)
Definition save_sources `{!External} (save_Mstar : option string) (z : Q)
           (srcpos : list (list Z)) (srcmstar : list Q) : M unit :=
  s ← get_self;
  match save_Mstar with
  | None | Some EmptyString => mret tt
  | Some folder_path =>
      let fname_hdf5 := (folder_path +:+ "/" +:+ fmt_3f z +:+ "-Mstar_sources.hdf5")%string in
      (if os_path_exists folder_path then mret tt
       else emit (MakeDirs folder_path);;
            emit (Printed "Folder '{folder_path}' created successfully." [LStr folder_path]));;
      emit (Hdf5File fname_hdf5 srcpos srcmstar z (cosmo_h (cosmology s)) (length srcmstar))
  end.

(** Lines 127-139: source lifetime, normalisation, report, [return].  The
    result is what the call returns: [Some] of the pair [(srcpos, normflux)],
    or [None] when the body ends without reaching the [return]. *)
Definition normalize_flux `{!External} (file : string) (z : Q)
           (srcpos : list (list Z)) (srcmstar : list Q)
  : M (option (list (list Z) * list Q)) :=
  s ← get_self;
  alph_h ← getattr "alph_h" ≫= py_num;
  let ts := 1 / (alph_h * (1 + z) * cosmo_H (cosmology s) z) in
  d ← getattr "fstar_dpl" ≫= py_dict;
  vNion ← dict_get d "Nion" ≫= as_num;
  let normflux := map (fun m => msun2g * vNion * m / (m_p * ts * S_star_ref)) srcmstar in
  if Z.eqb (rank s) 0 then
    emit (Printlog "\n---- Reading source file with total of %d ionizing source:\n%s"
                   [LInt (Z.of_nat (length normflux)); LStr file]);;
    emit (Printlog " Total Flux : %e [1/s]"
                   [LNum (np_sum (map (fun f => f * S_star_ref) normflux))]);;
    emit (Printlog " Source lifetime : %f Myr" [LNum (ts / (inject_Z (10 ^ 6) * YEAR))]);;
    mstar_min ← lift (np_min srcmstar);
    mstar_max ← lift (np_max srcmstar);
    flux_min ← lift (np_min normflux);
    let flux_mean := np_mean normflux in
    flux_max ← lift (np_max normflux);
    emit (Printlog " min, max stellar (grid) mass : %.3e  %.3e [Msun] and min, mean, max number of ionising sources : %.3e  %.3e  %.3e [1/s]"
                   [LNum mstar_min; LNum mstar_max; LNum (flux_min * S_star_ref);
                    LNum (flux_mean * S_star_ref); LNum (flux_max * S_star_ref)]);;
    mret (Some (srcpos, normflux))
  else mret None.

Definition ionizing_flux `{!External} (file : string) (z : Q)
           (save_Mstar : option string) : M (option (list (list Z) * list Q)) :=
  grid ← stellar_mass_on_grid file;
  let '(srcpos, srcmstar) := grid in
  save_sources save_Mstar z srcpos srcmstar;;
  normalize_flux file z srcpos srcmstar.

(** Arrays over the grid, flattened: [np.ones], [np.zeros], and [np.empty],
    whose cells hold whatever the memory held. *)
Definition ncells (shape : list nat) : nat := fold_right Nat.mul 1%nat shape.

Definition np_ones (shape : list nat) : list Q := replicate (ncells shape) 1.

Definition np_zeros (shape : list nat) : list Q := replicate (ncells shape) 0.

Definition np_empty `{!External} (shape : list nat) : list Q :=
  map uninitialised (seq 0 (ncells shape)).

(** [read_density(fbase, z)].  The method binds [self.ndens] to a new array
    and has no [return] statement: the call evaluates to [None]. *)
Definition read_density `{!External} (fbase : string) (z : Q) : M pyval :=
  s ← get_self;
  let file := (density_basename s +:+ fbase)%string in
  let c := cosmology s in
  let delta := load_density_field (boxsize s) (Nmesh s) (Om0 c) file in
  l ← alloc (map (fun d => critical_density0 c * Ob0 c * (1 + d)
                            / (mean_molecular s * m_p) * (1 + z) ^ 3) delta);
  setattr "ndens" (PArr l);;
  (if Z.eqb (rank s) 0 then
     emit (Printlog "\n---- Reading density file:\n  %s" [LStr file]);;
     l' ← getattr "ndens" ≫= py_array;
     nd ← load l';
     lo ← lift (np_min nd);
     hi ← lift (np_max nd);
     emit (Printlog " min, mean and max density : %.3e  %.3e  %.3e [1/cm3]"
                    [LNum lo; LNum (np_mean nd); LNum hi])
   else mret tt);;
  mret PNone.

(** [df.loc[z]]: the row labelled [z] (labels are distinct knots). *)
Fixpoint df_loc (df : list (Q * list Q)) (z : Q) : result (list Q) :=
  match df with
  | [] => Raise (KeyErrorQ z)
  | (k, row) :: rest => if Qeq_bool k z then Return row else df_loc rest z
  end.

(** [a, b, c = row]: exactly three values. *)
Definition unpack3 (row : list Q) : result (Q * Q * Q) :=
  match row with
  | [a; b; c] => Return (a, b, c)
  | _ => Raise ValueError
  end.

(** [read_clumping(parfile, z)], called with a redshift. *)
Definition read_clumping `{!External} (parfile : string) (z : Q) : M (list Q) :=
  s ← get_self;
  let df := pd_read_csv parfile in
  bins ← lift (find_bins z (Arr1 (map fst df)));
  let '(zlow, zhigh) := bins in
  let w_l := (z - zlow) / (zhigh - zlow) in
  let w_h := (zhigh - z) / (zhigh - zlow) in
  row_l ← lift (df_loc df zlow);
  row_h ← lift (df_loc df zhigh);
  abc ← lift (unpack3 (zip_with Qplus (map (fun p => p * w_l) row_l)
                                      (map (fun p => p * w_h) row_h)));
  let '(a, b, c) := abc in
  l ← getattr "ndens" ≫= py_array;
  nd ← load l;
  let x := map (fun d => np_log (1 + d / np_mean nd)) nd in
  let clump := map (fun x => pow10 (a * x ^ 2 + b * x ^ 2 + c)) x in
  store l (zip_with Qmult nd clump);;
  (if Z.eqb (rank s) 0 then
     emit (Printlog "\n---- Created Clumping Factor :" []);;
     clo ← lift (np_min clump);
     chi ← lift (np_max clump);
     emit (Printlog " min, mean and max clumping : %.3e  %.3e  %.3e"
                    [LNum clo; LNum (np_mean clump); LNum chi]);;
     l' ← getattr "ndens" ≫= py_array;
     nd' ← load l';
     lo ← lift (np_min nd');
     hi ← lift (np_max nd');
     emit (Printlog " min, mean and max density : %.3e  %.3e  %.3e"
                    [LNum lo; LNum (np_mean nd'); LNum hi])
   else mret tt);;
  mret clump.

Definition py_table (p : pyval) : M ndarray :=
  match p with
  | PTable t => mret t
  | _ => raise TypeError
  end.

Definition truthy (n : Z) : bool := negb (Z.eqb n 0).

Definition _redshift_init `{!External} : M unit :=
  s ← get_self;
  setattr "zred_density"
          (PTable (np_loadtxt (density_basename s +:+ "redshift_density.txt")));;
  setattr "zred_sources"
          (PTable (np_loadtxt (sources_basename s +:+ "redshift_sources.txt")));;
  (if truthy (resume s) then
     zmin ← lift (np_min (get_redshifts_from_output (results_basename s)));
     setattr "zred" (PVal (VNum zmin));;
     zred ← getattr "zred" ≫= py_num;
     dens ← getattr "zred_density" ≫= py_table;
     bd ← lift (find_bins zred dens);
     setattr "prev_zdens" (PVal (VNum (snd bd)));;
     zred ← getattr "zred" ≫= py_num;
     srcs ← getattr "zred_sources" ≫= py_table;
     bs ← lift (find_bins zred srcs);
     setattr "prev_zsourc" (PVal (VNum (snd bs)))
   else
     setattr "prev_zdens" (PVal (VNum (-1)));;
     setattr "prev_zsourc" (PVal (VNum (-1)));;
     setattr "zred" (PVal (VNum (zred_0 s))));;
  zred ← getattr "zred" ≫= py_num;
  setattr "time" (PVal (VNum (zred2time zred))).

(** [self._ld['Material'][key]] *)
Definition material (key : string) : M value :=
  s ← get_self;
  sect ← dict_get (_ld s) "Material";
  dict_get sect key.

Definition _material_init `{!External} : M unit :=
  s ← get_self;
  if truthy (resume s) then
    prev_zdens ← getattr "prev_zdens" ≫= py_num;
    r ← read_density ("CDM_200Mpc_2048." +:+ fmt_05d (resume s) +:+ ".den.256.0")
                     prev_zdens;
    setattr "ndens" r;;
    let ext := get_extension_in_folder (results_basename s) in
    (if String.eqb ext ".dat" then
       zred ← getattr "zred" ≫= py_num;
       lx ← alloc (read_cbin (results_basename s +:+ "xfrac_" +:+ fmt_3f zred +:+ ".dat") 64);
       setattr "xh" (PArr lx);;
       zred ← getattr "zred" ≫= py_num;
       lp ← alloc (read_cbin (results_basename s +:+ "IonRates_" +:+ fmt_3f zred +:+ ".dat") 32);
       setattr "phi_ion" (PArr lp)
     else if String.eqb ext ".npy" then
       zred ← getattr "zred" ≫= py_num;
       lx ← alloc (np_load (results_basename s +:+ "xfrac_" +:+ fmt_3f zred +:+ ".npy"));
       setattr "xh" (PArr lx);;
       zred ← getattr "zred" ≫= py_num;
       lp ← alloc (np_load (results_basename s +:+ "IonRates_" +:+ fmt_3f zred +:+ ".npy"));
       setattr "phi_ion" (PArr lp)
     else mret tt);;
    temp0 ← material "temp0";
    t0 ← as_num temp0;
    lt ← alloc (map (Qmult t0) (np_ones (shape s)));
    setattr "temp" (PArr lt)
  else
    xh0 ← material "xh0";
    temp0 ← material "temp0";
    avg_dens ← material "avg_dens";
    d0 ← as_num avg_dens;
    ln ← alloc (map (Qmult d0) (np_empty (shape s)));
    setattr "ndens" (PArr ln);;
    x0 ← as_num xh0;
    lx ← alloc (map (Qmult x0) (np_ones (shape s)));
    setattr "xh" (PArr lx);;
    t0 ← as_num temp0;
    lt ← alloc (map (Qmult t0) (np_ones (shape s)));
    setattr "temp" (PArr lt);;
    lp ← alloc (np_zeros (shape s));
    setattr "phi_ion" (PArr lp).

(** [self._ld['Sources'][key]] *)
Definition sources (key : string) : M value :=
  s ← get_self;
  sect ← dict_get (_ld s) "Sources";
  dict_get sect key.

(** [v == 'text'] for a YAML scalar. *)
Definition value_eq_str (v : value) (text : string) : bool :=
  match v with
  | VStr k => String.eqb k text
  | VNum _ => false
  end.

(** A value formatted with [:.1f]: a number. *)
Definition fmt_float (v : value) : M logarg :=
  match v with
  | VNum q => mret (LNum q)
  | VStr _ => raise ValueError
  end.

Definition _sources_init `{!External} : M unit :=
  s ← get_self;
  kind ← sources "fstar_kind";
  setattr "fstar_kind" (PVal kind);;
  if value_eq_str kind "fgamma" then
    hm ← sources "fgamma_hm";
    setattr "fgamma_hm" (PVal hm);;
    lm ← sources "fgamma_lm";
    setattr "fgamma_lm" (PVal lm);;
    if Z.eqb (rank s) 0 then
      a_lm ← fmt_float lm;
      a_hm ← fmt_float hm;
      emit (Printlog "Using UV model with fgamma_lm = {self.fgamma_lm:.1f} and fgamma_hm = {self.fgamma_hm:.1f}"
                     [a_lm; a_hm])
    else mret tt
  else if value_eq_str kind "dpl" then
    vNion ← sources "Nion";
    vf0 ← sources "f0";
    vMt ← sources "Mt";
    vMp ← sources "Mp";
    vg1 ← sources "g1";
    vg2 ← sources "g2";
    vg3 ← sources "g3";
    vg4 ← sources "g4";
    vf0_esc ← sources "f0_esc";
    vMp_esc ← sources "Mp_esc";
    val_esc ← sources "al_esc";
    let d : gmap string value :=
      <["al_esc" := val_esc]> (<["Mp_esc" := vMp_esc]> (<["f0_esc" := vf0_esc]> (
      <["g4" := vg4]> (<["g3" := vg3]> (<["g2" := vg2]> (<["g1" := vg1]> (
      <["Mp" := vMp]> (<["Mt" := vMt]> (<["f0" := vf0]> (<["Nion" := vNion]> ∅)))))))))) in
    setattr "fstar_dpl" (PDict d);;
    (if Z.eqb (rank s) 0 then
       emit (Printlog "Using {self.fstar_kind} to model the stellar-to-halo relation, and the parameter dictionary = {self.fstar_dpl}."
                      [LVal kind; LDict d])
     else mret tt);;
    acc ← sources "accretion_model";
    setattr "acc_model" (PVal acc);;
    alpha ← sources "alpha_h";
    setattr "alph_h" (PVal alpha)
  else mret tt.

(** ** A test bench

    Stand-ins for the external collaborators and a small run, on which the
    statements below are exercised.  The catalogs hold two halos of the same
    cell; the box is 10 Mpc/h wide with 4 cells a side and [h = 1/2]. *)

Module Bench.

Definition clamp (n i : Z) : Z := Z.max 0 (Z.min (n - 1) i).

(** The adjacent knots between which [z] lies, in the order of the table. *)
Fixpoint bracket (z : Q) (knots : list Q) : result (Q * Q) :=
  match knots with
  | a :: ((b :: _) as rest) =>
      if (Qle_bool a z && Qle_bool z b)%bool then Return (a, b)
      else if (Qle_bool b z && Qle_bool z a)%bool then Return (a, b)
      else bracket z rest
  | _ => Raise ValueError
  end.

Definition txt_rows : list (list Q) :=
  [ [10000; -4; -4; -4]; [20000; -4; 6; -6] ].

#[global] Instance ext : External := {|
  msun2g := 1989 * inject_Z (10 ^ 30);
  m_p := 1672661 / inject_Z (10 ^ 30);
  YEAR := 31557600;
  np_log := fun x => x - 1;
  pow10 := fun y => 1 + y;
  uninitialised := fun _ => 0;
  np_loadtxt := fun file =>
    if String.eqb file "src/halos.txt" then Arr2 txt_rows
    else if String.eqb file "src/redshift_sources.txt" then Arr1 [10; 9; 8]
    else Arr1 [12; 9; 7];
  np_load := fun file => [1; 1];
  h5py_File := fun file =>
    if String.eqb file "src/empty.hdf5"
    then {| attrs_h := 1 # 2; ds_mass := []; ds_pos := [] |}
    else {| attrs_h := 1 # 2; ds_mass := [5000; 10000];
            ds_pos := [[1 # 2; 1 # 2; 1 # 2]; [1 # 2; 1 # 2; 1 # 4]] |};
  HaloCubeP3MFull := fun file box_len => {| get_m := []; get_pos := [] |};
  read_cbin := fun file bits => if Z.eqb bits 64 then [1 # 2; 1 # 4] else [3; 4];
  load_density_field := fun boxsize n Om file => [0; 1];
  pd_read_csv := fun file => [(6, [1; 2; 3]); (8, [3; 4; 5])];
  os_path_exists := fun path => false;
  get_extension_in_folder := fun path => ".dat"%string;
  get_redshifts_from_output := fun path => [19 # 2; 8];
  find_bins := fun z table =>
    match table with Arr1 knots => bracket z knots | Arr2 _ => Raise ValueError end;
  zred2time := fun z => 100 - z;
  fmt_3f := fun q => if Qeq_bool q 8 then "8.000"%string else "0.000"%string;
  fmt_05d := fun n => "00001"%string;
  f_star_deterministic := fun model mhalo => map (fun _ => 1 # 10) mhalo;
  f_esc_deterministic := fun model mhalo => map (fun _ => 1 # 5) mhalo;
  into_range := clamp
|}.

Definition planck : Cosmology :=
  {| Ob0 := 4 # 100; Om0 := 25 # 100; cosmo_h := 1 # 2;
     cosmo_H := fun z => (1 + z) / inject_Z (10 ^ 18);
     critical_density0 := 1 / inject_Z (10 ^ 29) |}.

Definition dpl_sources : gmap string value :=
  list_to_map
    [ ("fstar_kind", VStr "dpl"); ("Nion", VNum 2000); ("f0", VNum (1 # 10));
      ("Mt", VNum 100); ("Mp", VNum 1000); ("g1", VNum 1); ("g2", VNum 2);
      ("g3", VNum 3); ("g4", VNum 4); ("f0_esc", VNum (1 # 5));
      ("Mp_esc", VNum 1000); ("al_esc", VNum (1 # 2));
      ("accretion_model", VStr "EXP"); ("alpha_h", VNum (3 # 4)) ]%string.

Definition fgamma_sources : gmap string value :=
  list_to_map [ ("fstar_kind", VStr "fgamma"); ("fgamma_hm", VNum 30);
                ("fgamma_lm", VNum 0) ]%string.

Definition material_section : gmap string value :=
  list_to_map [ ("xh0", VNum (1 # 1000)); ("temp0", VNum 10000);
                ("avg_dens", VNum (1 # 10000000)) ]%string.

(** A freshly constructed object, before the initialisation routines. *)
Definition new (rank resume : Z) (sources : gmap string value) : world :=
  {| self := {| rank := rank; boxsize := 10; Nmesh := 4; shape := [2; 1; 1]%nat;
                cosmology := planck;
                sources_basename := "src/"; density_basename := "dens/";
                results_basename := "out/";
                resume := resume; zred_0 := 12; mean_molecular := 1;
                _ld := list_to_map [ ("Sources", sources);
                                     ("Material", material_section) ]%string;
                attrs := ∅ |};
     heap := [];
     stdout := [] |}.

(** The world a method leaves behind. *)
Definition after {A} (m : M A) (w : world) : world := snd (m w).

(** An initialised object whose density field holds [1] and [3]. *)
Definition gridded : world :=
  after (l ← alloc [1; 3]; setattr "ndens" (PArr l)) (new 0 0 dpl_sources).

End Bench.

(** ** Further cases for the test bench *)

Module Cases.

(** The stand-ins of [Bench], over a results directory that holds the
    given output redshifts under the given extension. *)
Definition dir (outputs : list Q) (extension : string) : External := {|
  msun2g := @msun2g Bench.ext;
  m_p := @m_p Bench.ext;
  YEAR := @YEAR Bench.ext;
  np_log := @np_log Bench.ext;
  pow10 := @pow10 Bench.ext;
  uninitialised := @uninitialised Bench.ext;
  np_loadtxt := @np_loadtxt Bench.ext;
  np_load := @np_load Bench.ext;
  h5py_File := @h5py_File Bench.ext;
  HaloCubeP3MFull := @HaloCubeP3MFull Bench.ext;
  read_cbin := @read_cbin Bench.ext;
  load_density_field := @load_density_field Bench.ext;
  pd_read_csv := @pd_read_csv Bench.ext;
  os_path_exists := @os_path_exists Bench.ext;
  get_extension_in_folder := fun path => extension;
  get_redshifts_from_output := fun path => outputs;
  find_bins := @find_bins Bench.ext;
  zred2time := @zred2time Bench.ext;
  fmt_3f := @fmt_3f Bench.ext;
  fmt_05d := @fmt_05d Bench.ext;
  f_star_deterministic := @f_star_deterministic Bench.ext;
  f_esc_deterministic := @f_esc_deterministic Bench.ext;
  into_range := @into_range Bench.ext
|}.

(** A parameter file whose [Material] section lacks [temp0]. *)
Definition no_temp0 : world :=
  {| self := {| rank := 0; boxsize := 10; Nmesh := 4; shape := [2; 1; 1]%nat;
                cosmology := Bench.planck;
                sources_basename := "src/"; density_basename := "dens/";
                results_basename := "out/";
                resume := 0; zred_0 := 12; mean_molecular := 1;
                _ld := list_to_map
                         [ ("Sources", Bench.dpl_sources);
                           ("Material", list_to_map [ ("xh0", VNum (1 # 1000));
                                                      ("avg_dens", VNum 1) ]) ]%string;
                attrs := ∅ |};
     heap := [[7; 7]];
     stdout := [] |}.

End Cases.

(** ** What a method may touch *)

(** A method that leaves the object and the heap as they were and at most
    adds reports (log lines, prints, folders and files written) to the
    output, whether it returns or raises. *)
Definition logs_only {A} (m : M A) : Prop :=
  forall w, self (snd (m w)) = self w
            /\ heap (snd (m w)) = heap w
            /\ exists out, stdout (snd (m w)) = stdout w ++ out.

(** * Properties *)

(** ** Reasoning about methods *)

Section MonadLaws.
Context {A B : Type}.

Lemma bind_unfold (m : M A) (f : A -> M B) (w : world) :
  (m ≫= f) w = match m w with
               | (Return a, w') => f a w'
               | (Raise e, w') => (Raise e, w')
               end.
Proof. reflexivity. Qed.

Lemma bind_Return (m : M A) (f : A -> M B) (w w' : world) (a : A) :
  m w = (Return a, w') -> (m ≫= f) w = f a w'.
Proof. intros E. rewrite bind_unfold, E. reflexivity. Qed.

End MonadLaws.

Lemma getattr_Some (name : string) (v : pyval) (w : world) :
  attrs (self w) !! name = Some v -> getattr name w = (Return v, w).
Proof. intros E. unfold getattr. rewrite E. reflexivity. Qed.

Section HoareRules.
Context {A B : Type}.
Implicit Types (P : world -> Prop) (E : exn -> Prop).

Lemma hoare_bind P (m : M A) (f : A -> M B) (R : A -> world -> Prop)
      (Q : B -> world -> Prop) E :
  hoare P m R E -> (forall a, hoare (R a) (f a) Q E) -> hoare P (m ≫= f) Q E.
Proof.
  intros Hm Hf w HP. rewrite bind_unfold. specialize (Hm w HP).
  destruct (m w) as [[e|a] w']; [exact Hm|]. apply Hf, Hm.
Qed.

Lemma hoare_conseq P P' (m : M A) (Q Q' : A -> world -> Prop) E E' :
  hoare P' m Q' E' ->
  (forall w, P w -> P' w) -> (forall a w, Q' a w -> Q a w) -> (forall e, E' e -> E e) ->
  hoare P m Q E.
Proof.
  intros H HP HQ HE w Hw. specialize (H w (HP w Hw)).
  destruct (m w) as [[e|a] w']; auto.
Qed.
End HoareRules.

Section ReadsRules.
Context {A B : Type}.
Implicit Types (P : world -> Prop) (E : exn -> Prop).

Lemma reads_bind P (m : M A) (f : A -> M B) E :
  reads P m E -> (forall a, reads P (f a) E) -> reads P (m ≫= f) E.
Proof.
  intros Hm Hf w HP. rewrite bind_unfold. specialize (Hm w HP).
  destruct (m w) as [[e|a] w']; [exact Hm|]. subst w'. apply Hf, HP.
Qed.

Lemma reads_ret P (a : A) E : reads P (mret a) E.
Proof. intros w _. reflexivity. Qed.

Lemma reads_raise P (e : exn) E : E e -> reads P (raise e : M A) E.
Proof. intros He w _. exact He. Qed.

Lemma reads_lift P (r : result A) E :
  (forall e, r = Raise e -> E e) -> reads P (lift r) E.
Proof. intros H w _. unfold lift. destruct r; auto. Qed.

Lemma hoare_reads P (m : M A) E :
  reads P m E -> hoare P m (fun a w => P w /\ m w = (Return a, w)) E.
Proof.
  intros H w HP. specialize (H w HP).
  destruct (m w) as [[e|a] w'] eqn:Em; [exact H|]. subst w'. auto.
Qed.
End ReadsRules.

Lemma reads_get_self (P : world -> Prop) (E : exn -> Prop) : reads P get_self E.
Proof. intros w _. reflexivity. Qed.

Lemma reads_getattr (P : world -> Prop) (name : string) (E : exn -> Prop) :
  (forall w, P w -> attrs (self w) !! name = None -> E (AttributeError name)) ->
  reads P (getattr name) E.
Proof.
  intros HE w HP. unfold getattr.
  destruct (attrs (self w) !! name) eqn:L; [reflexivity | exact (HE w HP L)].
Qed.

Lemma reads_dict_get {V} (P : world -> Prop) (d : gmap string V) (key : string)
      (E : exn -> Prop) :
  E (KeyError key) -> reads P (dict_get d key) E.
Proof.
  intros HE. unfold dict_get. destruct (d !! key); [apply reads_ret | apply reads_raise, HE].
Qed.

Lemma reads_as_num (P : world -> Prop) (v : value) (E : exn -> Prop) :
  E TypeError -> reads P (as_num v) E.
Proof. intros HE. destruct v; [apply reads_ret | apply reads_raise, HE]. Qed.

Lemma reads_py_num (P : world -> Prop) (p : pyval) (E : exn -> Prop) :
  E TypeError -> reads P (py_num p) E.
Proof.
  intros HE. destruct p; simpl; try (apply reads_raise, HE). apply reads_as_num, HE.
Qed.

Lemma reads_py_dict (P : world -> Prop) (p : pyval) (E : exn -> Prop) :
  E TypeError -> reads P (py_dict p) E.
Proof. intros HE. destruct p; simpl; try (apply reads_raise, HE). apply reads_ret. Qed.

Lemma column0_errors (rows : list (list Q)) (e : exn) :
  column0 rows = Raise e -> e = IndexError.
Proof.
  induction rows as [|[|x row] rest IH]; simpl; try discriminate.
  - intros [= <-]. reflexivity.
  - destruct (column0 rest); [|discriminate]. intros [= <-]. apply IH. reflexivity.
Qed.

Lemma reads_read_haloes `{!External} (P : world -> Prop) (halo_file : string) (box_len : Q)
      (name : string) :
  name <> "h"%string ->
  reads P (read_haloes halo_file box_len) (not_missing name).
Proof.
  intros Hname. unfold read_haloes.
  apply reads_bind; [apply reads_get_self|]. intros s.
  destruct (endswith halo_file ".hdf5"); [apply reads_ret|].
  destruct (endswith halo_file ".dat").
  { apply reads_bind; [|intros h; apply reads_ret].
    apply reads_bind; [|intros p; apply reads_py_num; discriminate].
    apply reads_getattr. intros _ _ _ [= Heq]. congruence. }
  destruct (endswith halo_file ".txt"); [|apply reads_raise; discriminate].
  destruct (np_loadtxt halo_file) as [xs|hl]; [apply reads_raise; discriminate|].
  apply reads_bind; [|intros col0; apply reads_ret].
  apply reads_lift. intros e He. rewrite (column0_errors _ _ He). discriminate.
Qed.

Lemma reads_fstar_model_locals `{!External} (P : world -> Prop) (mhalo : list Q)
      (name : string) :
  name <> "fstar_kind"%string -> name <> "lower"%string ->
  (forall w, P w -> name = "fstar_dpl"%string -> attrs (self w) !! name <> None) ->
  forall w, P w ->
    match fstar_model_locals mhalo w with
    | (Return (Some _, Some _), w') => w' = w
    | (Return _, _) => True
    | (Raise e, _) => not_missing name e
    end.
Proof.
  intros Hk Hl Hd w HP. unfold fstar_model_locals.
  rewrite bind_unfold. cbn [get_self]. rewrite bind_unfold. unfold getattr.
  destruct (attrs (self w) !! "fstar_kind"%string) as [kind|]; [|intros [= Heq]; congruence].
  rewrite bind_unfold.
  destruct kind as [|[q|k]| | |]; cbn [py_lower raise]; try (intros [= Heq]; congruence).
  cbn [mret M_ret].
  destruct (str_in (lower k) _); [exact I|].
  destruct (str_in (lower k) _); [|exact I].
  match goal with |- match ?m w with _ => _ end =>
    assert (R : reads (fun w' => w' = w) m (not_missing name)) end.
  { apply reads_bind.
    { apply reads_bind; [|intros p; apply reads_py_dict; discriminate].
      apply reads_getattr. intros w' -> Hnone [= Heq]. subst name.
      exact (Hd w HP eq_refl Hnone). }
    intros d.
    repeat (apply reads_bind; [apply reads_dict_get; discriminate | intros ?]).
    apply reads_ret. }
  specialize (R w eq_refl).
  match goal with |- match ?m w with _ => _ end => destruct (m w) as [[e|[[a|] [b|]]] w'] end;
    auto.
Qed.

(** ** The grid projection sums and conserves *)

Lemma lookup_map {A B : Type} (f : A -> B) (l : list A) (i : nat) :
  map f l !! i = f <$> (l !! i).
Proof. exact (list_lookup_fmap f l i). Qed.

Lemma elem_of_map {A B : Type} (f : A -> B) (l : list A) (y : B) :
  y ∈ map f l <-> exists x, y = f x /\ x ∈ l.
Proof. exact (list_elem_of_fmap f l y). Qed.

Section Binning.
Import Halo2Grid.

Lemma cell_eqb_true (c d : list Z) : cell_eqb c d = true <-> c = d.
Proof. unfold cell_eqb. apply bool_decide_eq_true. Qed.

Lemma cell_eqb_false (c d : list Z) : cell_eqb c d = false <-> c <> d.
Proof. unfold cell_eqb. apply bool_decide_eq_false. Qed.

Lemma add_to_cell_cells (binned : list (list Z * Q)) (c : list Z) (v : Q) (d : list Z) :
  d ∈ map fst (add_to_cell binned c v) <-> d = c \/ d ∈ map fst binned.
Proof.
  induction binned as [|[e s] rest IH]; simpl.
  - rewrite list_elem_of_singleton, elem_of_nil. tauto.
  - destruct (cell_eqb c e) eqn:E; simpl.
    + apply cell_eqb_true in E. subst e. rewrite elem_of_cons. tauto.
    + rewrite !elem_of_cons, IH. tauto.
Qed.

Lemma add_to_cell_NoDup (binned : list (list Z * Q)) (c : list Z) (v : Q) :
  NoDup (map fst binned) -> NoDup (map fst (add_to_cell binned c v)).
Proof.
  induction binned as [|[e s] rest IH]; simpl; intros ND.
  - apply NoDup_singleton.
  - destruct (cell_eqb c e) eqn:E; simpl; [exact ND|].
    apply cell_eqb_false in E.
    apply NoDup_cons in ND as [Hnot ND]. apply NoDup_cons. split; [|auto].
    rewrite add_to_cell_cells. intros [->|Hin]; [congruence | auto].
Qed.

Lemma add_to_cell_sum_in_cell (binned : list (list Z * Q)) (c : list Z) (v : Q) (d : list Z) :
  sum_in_cell d (add_to_cell binned c v)
  == sum_in_cell d binned + sum_in_cell d [(c, v)].
Proof.
  induction binned as [|[e s] rest IH]; simpl.
  - destruct (cell_eqb d c); ring.
  - destruct (cell_eqb c e) eqn:E; simpl.
    + apply cell_eqb_true in E. subst e.
      destruct (cell_eqb d c); ring.
    + simpl in IH. destruct (cell_eqb d e); rewrite IH; ring.
Qed.

Lemma add_to_cell_total (binned : list (list Z * Q)) (c : list Z) (v : Q) :
  np_sum (map snd (add_to_cell binned c v)) == np_sum (map snd binned) + v.
Proof.
  induction binned as [|[e s] rest IH]; simpl.
  - ring.
  - destruct (cell_eqb c e); simpl; [|rewrite IH]; ring.
Qed.

Lemma fold_step_cells (halos binned : list (list Z * Q)) (d : list Z) :
  d ∈ map fst (fold_left step halos binned)
  <-> d ∈ map fst binned \/ d ∈ map fst halos.
Proof.
  revert binned. induction halos as [|[c v] rest IH]; intros binned; simpl.
  - rewrite elem_of_nil. tauto.
  - rewrite IH. unfold step. simpl. rewrite add_to_cell_cells, elem_of_cons. tauto.
Qed.

Lemma fold_step_NoDup (halos binned : list (list Z * Q)) :
  NoDup (map fst binned) -> NoDup (map fst (fold_left step halos binned)).
Proof.
  revert binned. induction halos as [|[c v] rest IH]; intros binned ND; simpl; [exact ND|].
  apply IH. apply add_to_cell_NoDup, ND.
Qed.

Lemma fold_step_sum_in_cell (halos binned : list (list Z * Q)) (d : list Z) :
  sum_in_cell d (fold_left step halos binned)
  == sum_in_cell d binned + sum_in_cell d halos.
Proof.
  revert binned. induction halos as [|[c v] rest IH]; intros binned; simpl.
  - ring.
  - rewrite IH. unfold step. simpl. rewrite add_to_cell_sum_in_cell. simpl.
    destruct (cell_eqb d c); ring.
Qed.

Lemma fold_step_total (halos binned : list (list Z * Q)) :
  np_sum (map snd (fold_left step halos binned))
  == np_sum (map snd binned) + np_sum (map snd halos).
Proof.
  revert binned. induction halos as [|[c v] rest IH]; intros binned; simpl.
  - ring.
  - rewrite IH. unfold step. simpl. rewrite add_to_cell_total. ring.
Qed.

Lemma sum_in_cell_absent (c : list Z) (binned : list (list Z * Q)) :
  c ∉ map fst binned -> sum_in_cell c binned == 0.
Proof.
  induction binned as [|[e s] rest IH]; simpl; intros Hnot; [reflexivity|].
  apply not_elem_of_cons in Hnot as [Hne Hnot].
  apply cell_eqb_false in Hne. rewrite Hne. auto.
Qed.

Lemma sum_in_cell_entry (binned : list (list Z * Q)) (c : list Z) (s : Q) :
  NoDup (map fst binned) -> (c, s) ∈ binned -> s == sum_in_cell c binned.
Proof.
  induction binned as [|[e t] rest IH]; simpl; intros ND Hin.
  - inversion Hin.
  - apply NoDup_cons in ND as [Hnot ND].
    apply elem_of_cons in Hin as [Heq|Hin].
    + inversion Heq; subst e t.
      replace (cell_eqb c c) with true by (symmetry; apply cell_eqb_true; reflexivity).
      rewrite (sum_in_cell_absent c rest Hnot). ring.
    + assert (c <> e) as Hne.
      { intros ->. apply Hnot. apply elem_of_map. exists (e, s). auto. }
      apply cell_eqb_false in Hne. rewrite Hne. auto.
Qed.
End Binning.

(** C1.  For every halo catalog (as many values as positions), the binning
    of [Halo2Grid] that [ionizing_flux] invokes succeeds, and the sparse pair
    [(srcpos, srcmstar)] it yields has exactly one entry per distinct
    occupied cell: [srcpos] has no duplicate and holds the cells of the
    halos and only them; the value of each entry is the sum of the input
    values of the halos of its cell; hence the aggregated values sum to the
    sum of the input values. *)
Theorem value_on_grid_conserves_mass (hg : Halo2Grid.t) (pos_grid : list (list Z))
        (values : list Q) :
  length pos_grid = length values ->
  exists binned,
    Halo2Grid.value_on_grid hg pos_grid values = Return binned /\
    forall srcpos srcmstar,
      Halo2Grid.halo_value_on_grid hg values binned = (srcpos, srcmstar) ->
      NoDup srcpos /\
      (forall c, c ∈ srcpos <-> c ∈ pos_grid) /\
      (forall i c s, srcpos !! i = Some c -> srcmstar !! i = Some s ->
                     s == sum_in_cell c (zip pos_grid values)) /\
      np_sum srcmstar == np_sum values.
Proof.
  intros Hlen. exists (Halo2Grid.bin pos_grid values). split.
  - unfold Halo2Grid.value_on_grid. rewrite Hlen, Nat.eqb_refl. reflexivity.
  - intros srcpos srcmstar Hv. unfold Halo2Grid.halo_value_on_grid in Hv.
    inversion Hv; subst srcpos srcmstar; clear Hv.
    unfold Halo2Grid.bin.
    assert (ND : NoDup (map fst (fold_left Halo2Grid.step (zip pos_grid values) []))).
    { apply fold_step_NoDup. simpl. apply NoDup_nil_2. }
    split; [exact ND|]. split; [|split].
    + intros c. rewrite fold_step_cells. simpl.
      change (map fst (zip pos_grid values)) with ((zip pos_grid values).*1).
      rewrite fst_zip by lia. rewrite elem_of_nil. tauto.
    + intros i c s Hc Hs.
      rewrite lookup_map in Hc. rewrite lookup_map in Hs.
      destruct (fold_left Halo2Grid.step (zip pos_grid values) [] !! i) as [[c' s']|] eqn:E;
        simpl in Hc, Hs; [|discriminate].
      inversion Hc; inversion Hs; subst c' s'.
      apply list_elem_of_lookup_2 in E.
      rewrite (sum_in_cell_entry _ _ _ ND E).
      rewrite fold_step_sum_in_cell. simpl. ring.
    + rewrite fold_step_total. simpl.
      change (map snd (zip pos_grid values)) with ((zip pos_grid values).*2).
      rewrite snd_zip by lia. ring.
Qed.

Lemma value_on_grid_conserves_mass_witness :
  exists binned,
    Halo2Grid.value_on_grid (Halo2Grid.init 20 4)
                            [[0; 0; 0]; [1; 0; 3]; [0; 0; 0]]%Z [1; 2; 3] = Return binned /\
    forall srcpos srcmstar,
      Halo2Grid.halo_value_on_grid (Halo2Grid.init 20 4) [1; 2; 3] binned
      = (srcpos, srcmstar) ->
      NoDup srcpos /\
      (forall c, c ∈ srcpos <-> c ∈ [[0; 0; 0]; [1; 0; 3]; [0; 0; 0]]%Z) /\
      (forall i c s, srcpos !! i = Some c -> srcmstar !! i = Some s ->
                     s == sum_in_cell c (zip [[0; 0; 0]; [1; 0; 3]; [0; 0; 0]]%Z [1; 2; 3])) /\
      np_sum srcmstar == np_sum [1; 2; 3].
Proof.
  apply (value_on_grid_conserves_mass (Halo2Grid.init 20 4)
           [[0; 0; 0]; [1; 0; 3]; [0; 0; 0]]%Z [1; 2; 3]).
  reflexivity.
Defined.

(** ** The stellar-mass model *)

(** C7.  When [fstar_kind], lowered, is one of [fgamma], [f_gamma],
    [mass_independent], the branch binds the local [fstar] to the baryon
    fraction [Ob0/Om0] (a scalar, for all halos alike) and leaves [fesc]
    unassigned; the [return fstar, fesc] that follows then raises
    UnboundLocalError, so the call yields no [fstar] at all. *)
Theorem fstar_model_fgamma_raises `{!External} (mhalo : list Q) (w : world)
        (kind : string) :
  attrs (self w) !! "fstar_kind"%string = Some (PVal (VStr kind)) ->
  str_in (lower kind) ["fgamma"; "f_gamma"; "mass_independent"]%string = true ->
  fstar_model_locals mhalo w
  = (Return (Some (Scalar (Ob0 (cosmology (self w)) / Om0 (cosmology (self w)))), None), w)
  /\ fstar_model mhalo w = (Raise (UnboundLocalError "fesc"), w).
Proof.
  intros Hk Hin.
  assert (L : fstar_model_locals mhalo w
    = (Return (Some (Scalar (Ob0 (cosmology (self w)) / Om0 (cosmology (self w)))), None), w)).
  { unfold fstar_model_locals.
    rewrite bind_unfold. cbn [get_self].
    rewrite (bind_Return _ _ _ _ _ (getattr_Some _ _ _ Hk)).
    rewrite bind_unfold. cbn [py_lower mret M_ret].
    rewrite Hin. reflexivity. }
  split; [exact L|].
  unfold fstar_model. rewrite (bind_Return _ _ _ _ _ L). reflexivity.
Qed.

Lemma fstar_model_fgamma_raises_witness :
  let w := Bench.after _sources_init (Bench.new 0 0 Bench.fgamma_sources) in
  fstar_model_locals [10000; 20000] w = (Return (Some (Scalar ((4 # 100) / (25 # 100))), None), w)
  /\ fstar_model [10000; 20000] w = (Raise (UnboundLocalError "fesc"), w).
Proof.
  exact (fstar_model_fgamma_raises [10000; 20000]
           (Bench.after _sources_init (Bench.new 0 0 Bench.fgamma_sources))
           "fgamma" eq_refl eq_refl).
Defined.

(** ** Reading a text catalog *)

Lemma Qltb_lt (x y : Q) : Qltb x y = true <-> x < y.
Proof.
  unfold Qltb. rewrite negb_true_iff. split.
  - intros E. apply Qnot_le_lt. intros L. apply Qle_bool_iff in L. congruence.
  - intros L. destruct (Qle_bool y x) eqn:E; [|reflexivity].
    apply Qle_bool_iff in E. exfalso. exact (Qlt_not_le _ _ L E).
Qed.

Lemma Qltb_ge (x y : Q) : Qltb x y = false <-> y <= x.
Proof.
  unfold Qltb. rewrite negb_false_iff. apply Qle_bool_iff.
Qed.

Lemma wrap_high_above (boxsize c : Q) : boxsize < c -> wrap_high boxsize c = boxsize - c.
Proof. intros L. unfold wrap_high. apply Qltb_lt in L. rewrite L. reflexivity. Qed.

Lemma wrap_low_below (boxsize c : Q) : c < 0 -> wrap_low boxsize c = boxsize + c.
Proof. intros L. unfold wrap_low. apply Qltb_lt in L. rewrite L. reflexivity. Qed.

Lemma wrap_beyond_box (boxsize d : Q) : 0 < d -> wrap boxsize (boxsize + d) == boxsize - d.
Proof.
  intros Hd. unfold wrap.
  rewrite wrap_high_above by lra.
  rewrite wrap_low_below by lra. ring.
Qed.

Lemma wrap_before_box (boxsize d : Q) :
  0 < d -> d < boxsize -> wrap boxsize (- d) == boxsize - d.
Proof.
  intros Hd Hb. unfold wrap.
  assert (E : wrap_high boxsize (- d) = - d).
  { unfold wrap_high. replace (Qltb boxsize (- d)) with false; [reflexivity|].
    symmetry. apply Qltb_ge. lra. }
  rewrite E, wrap_low_below by lra. ring.
Qed.

(** The characters of a suffix are the last characters of the string. *)
Lemma endswith_get (s suffix : string) (i : nat) :
  endswith s suffix = true -> (i < String.length suffix)%nat ->
  (String.length suffix <= String.length s)%nat
  /\ get (String.length s - String.length suffix + i) s = get i suffix.
Proof.
  unfold endswith. intros E Hi.
  apply andb_prop in E as [Hle Heq].
  apply Nat.leb_le in Hle. apply String.eqb_eq in Heq.
  split; [exact Hle|].
  transitivity (get i (substring (String.length s - String.length suffix)
                                (String.length suffix) s)).
  - rewrite substring_correct1 by exact Hi. f_equal. lia.
  - rewrite Heq. reflexivity.
Qed.

(** A name in [.txt] takes neither of the two branches tested before. *)
Lemma endswith_txt_only (s : string) :
  endswith s ".txt" = true ->
  endswith s ".hdf5" = false /\ endswith s ".dat" = false.
Proof.
  intros Htxt. split.
  - destruct (endswith s ".hdf5") eqn:E; [|reflexivity].
    destruct (endswith_get s ".txt" 3 Htxt) as [L1 G1]; [simpl; lia|].
    destruct (endswith_get s ".hdf5" 4 E) as [L2 G2]; [simpl; lia|].
    simpl in *.
    replace (String.length s - 5 + 4)%nat with (String.length s - 4 + 3)%nat in G2 by lia.
    rewrite G1 in G2. discriminate G2.
  - destruct (endswith s ".dat") eqn:E; [|reflexivity].
    destruct (endswith_get s ".txt" 2 Htxt) as [L1 G1]; [simpl; lia|].
    destruct (endswith_get s ".dat" 2 E) as [L2 G2]; [simpl; lia|].
    simpl in *. rewrite G1 in G2. discriminate G2.
Qed.

(** C3, as the code has it.  On a [.txt] catalog [read_haloes] shifts every
    coordinate by half the box size, applies [wrap] and divides by [h].
    [wrap] is two assignments in a row: a coordinate above [boxsize] is
    replaced by [boxsize - coordinate], then a coordinate below 0 (one just
    replaced included) by [boxsize + coordinate].  So for [0 < d < boxsize]
    both [boxsize + d] and [- d] end at [boxsize - d]. *)
Theorem read_haloes_txt_wrap `{!External} (halo_file : string) (box_len : Q)
        (w : world) (hl : list (list Q)) (col0 : list Q) :
  endswith halo_file ".txt" = true ->
  np_loadtxt halo_file = Arr2 hl ->
  column0 hl = Return col0 ->
  let bs := boxsize (self w) in
  let h := cosmo_h (cosmology (self w)) in
  read_haloes halo_file box_len w
  = (Return (map (map (fun c => wrap bs (c + bs / 2) / h)) (columns_from1 hl),
             map (fun m => m / h) col0), w)
  /\ (forall c, bs < c -> wrap_high bs c = bs - c)
  /\ (forall c, c < 0 -> wrap_low bs c = bs + c)
  /\ (forall d, 0 < d -> d < bs ->
                wrap bs (bs + d) == bs - d /\ wrap bs (- d) == bs - d).
Proof.
  intros Htxt Hload Hcol bs h.
  destruct (endswith_txt_only halo_file Htxt) as [Hh5 Hdat].
  split; [|split; [|split]].
  - unfold read_haloes. rewrite bind_unfold. cbn [get_self].
    rewrite Hh5, Hdat, Htxt, Hload.
    rewrite bind_unfold. unfold lift. rewrite Hcol.
    unfold mret, M_ret, wrap. fold bs h.
    rewrite !map_map.
    do 3 f_equal. apply map_ext. intros row. rewrite !map_map. reflexivity.
  - apply wrap_high_above.
  - apply wrap_low_below.
  - intros d Hd Hb. split; [apply wrap_beyond_box | apply wrap_before_box]; assumption.
Qed.

Lemma read_haloes_txt_wrap_witness :
  let w := Bench.new 0 0 Bench.dpl_sources in
  read_haloes "src/halos.txt" 10 w
  = (Return (map (map (fun c => wrap 10 (c + 10 / 2) / (1 # 2)))
                 (columns_from1 Bench.txt_rows),
             map (fun m => m / (1 # 2)) [10000; 20000]), w)
  /\ (forall c, 10 < c -> wrap_high 10 c = 10 - c)
  /\ (forall c, c < 0 -> wrap_low 10 c = 10 + c)
  /\ (forall d, 0 < d -> d < 10 -> wrap 10 (10 + d) == 10 - d /\ wrap 10 (- d) == 10 - d).
Proof.
  exact (read_haloes_txt_wrap "src/halos.txt" 10 (Bench.new 0 0 Bench.dpl_sources)
           Bench.txt_rows [10000; 20000] eq_refl eq_refl eq_refl).
Defined.

(** C3 as the specification words it fails one box below zero: with
    [boxsize = 10] and [d = 1] the coordinate [-1] is wrapped to [9], which
    is [boxsize - d] and not [boxsize + d = 11]; read through [read_haloes],
    the raw coordinate [-6] of the bench catalog (shifted to [-1]) comes out
    as [9 / h = 18]. *)
Lemma wrap_below_zero_counterexample :
  ~ (forall boxsize d : Q, 0 < d -> d < boxsize ->
       wrap boxsize (boxsize + d) == boxsize - d /\ wrap boxsize (- d) == boxsize + d)
  /\ wrap 10 (- (1)) == 9
  /\ fst (read_haloes "src/halos.txt" 10 (Bench.new 0 0 Bench.dpl_sources))
     = Return ([[4 # 2; 4 # 2; 4 # 2]; [4 # 2; 36 # 2; 36 # 2]], [20000; 40000]).
Proof.
  split; [|split].
  - intros Hall. destruct (Hall 10 1) as [_ Hneg]; [reflexivity | reflexivity |].
    vm_compute in Hneg. discriminate Hneg.
  - reflexivity.
  - vm_compute. reflexivity.
Qed.

(** ** The stages of [ionizing_flux] *)

(** Running a method symbolically: unfold the monad, then split on the
    innermost scrutinee that blocks the computation. *)
Ltac run_monad :=
  lazy beta iota zeta delta
       [mbind M_bind mret M_ret raise lift get_self getattr setattr emit alloc load store
        dict_get as_num py_num py_dict py_array py_table py_lower sources material
        on_self];
  cbn beta iota zeta delta
      [fst snd self heap stdout
       rank boxsize Nmesh shape cosmology sources_basename density_basename
       results_basename resume zred_0 mean_molecular _ld attrs].

Ltac run_monad_in H :=
  lazy beta iota zeta delta
       [mbind M_bind mret M_ret raise lift get_self getattr setattr emit alloc load store
        dict_get as_num py_num py_dict py_array py_table py_lower sources material
        on_self fst snd self heap stdout
        rank boxsize Nmesh shape cosmology sources_basename density_basename
        results_basename resume zred_0 mean_molecular _ld attrs] in H.

Ltac case_scrutinee :=
  match goal with
  | |- context [match ?x with _ => _ end] =>
      lazymatch x with
      | context [match _ with _ => _ end] => fail
      | _ => destruct x eqn:?
      end
  end.

Lemma np_min_Return (xs : list Q) (m : Q) : np_min xs = Return m -> xs <> [].
Proof. destruct xs; [discriminate | discriminate]. Qed.

Lemma np_min_Raise (xs : list Q) (e : exn) : np_min xs = Raise e -> e = ValueError.
Proof. destruct xs; [intros [= <-]; reflexivity | discriminate]. Qed.

Lemma np_max_Raise (xs : list Q) (e : exn) : np_max xs = Raise e -> e = ValueError.
Proof. destruct xs; [intros [= <-]; reflexivity | discriminate]. Qed.

Ltac case_scrutinee_in H :=
  match type of H with
  | context [match ?x with _ => _ end] =>
      lazymatch x with
      | context [match _ with _ => _ end] => fail
      | _ => destruct x eqn:?
      end
  end.

Ltac known_exn :=
  match goal with
  | H : np_min _ = Raise ?e |- _ => apply np_min_Raise in H; subst e
  | H : np_max _ = Raise ?e |- _ => apply np_max_Raise in H; subst e
  end.

Lemma hoare_normalize_flux `{!External} (J : C2Ray_fstar -> Prop) (name : string)
      (file : string) (z : Q) (srcpos : list (list Z)) (srcmstar : list Q) :
  name <> "alph_h"%string ->
  (name = "fstar_dpl"%string -> forall s, J s -> attrs s !! name <> None) ->
  hoare (on_self J) (normalize_flux file z srcpos srcmstar)
        (fun r w => on_self J w /\
                    match r with
                    | None => rank (self w) <> 0%Z
                    | Some x => rank (self w) = 0%Z /\ srcmstar <> [] /\ fst x = srcpos
                                /\ length (snd x) = length srcmstar
                    end)
        (not_missing name).
Proof.
  intros Ha Hd w HJ. unfold normalize_flux. run_monad.
  repeat (case_scrutinee; run_monad); subst;
    try known_exn; try (intros [= Heq]; congruence).
  - split; [exact HJ|]. apply Z.eqb_eq in Heqb.
    split; [assumption|]. split; [eapply np_min_Return; eauto|].
    split; [reflexivity | apply length_map].
  - split; [exact HJ|]. apply Z.eqb_neq in Heqb. assumption.
  - intros [= Heq]. symmetry in Heq. eapply (Hd Heq); eauto. subst name. eassumption.
Qed.

Lemma hoare_save_sources `{!External} (J : C2Ray_fstar -> Prop) (save_Mstar : option string)
      (z : Q) (srcpos : list (list Z)) (srcmstar : list Q) (E : exn -> Prop) :
  hoare (on_self J) (save_sources save_Mstar z srcpos srcmstar)
        (fun _ w => on_self J w) E.
Proof.
  intros w HJ. unfold save_sources. run_monad.
  destruct save_Mstar as [[|c folder]|]; run_monad; try exact HJ.
  destruct (os_path_exists _); run_monad; exact HJ.
Qed.

Lemma np_mul_arrays_Raise (xs ys : list Q) (e : exn) :
  np_mul_arrays xs ys = Raise e -> e = ValueError.
Proof.
  unfold np_mul_arrays. destruct (Nat.eqb _ _); [discriminate|].
  destruct xs as [|x [|x' xs]], ys as [|y [|y' ys]]; try discriminate;
    intros [= <-]; reflexivity.
Qed.

Lemma np_mul_Raise (a b : ndval) (e : exn) : np_mul a b = Raise e -> e = ValueError.
Proof.
  destruct a as [x|xs], b as [y|ys]; simpl; try discriminate.
  destruct (np_mul_arrays xs ys) eqn:E; [|discriminate].
  intros [= <-]. exact (np_mul_arrays_Raise _ _ _ E).
Qed.

Lemma np_mul_arr_Raise (a : ndval) (xs : list Q) (e : exn) :
  np_mul_arr a xs = Raise e -> e = ValueError.
Proof.
  destruct a as [x|ys]; simpl; [discriminate | apply np_mul_arrays_Raise].
Qed.

Lemma value_on_grid_Raise (hg : Halo2Grid.t) (pos_grid : list (list Z)) (values : list Q)
      (e : exn) :
  Halo2Grid.value_on_grid hg pos_grid values = Raise e -> e = MalformedCatalog.
Proof.
  unfold Halo2Grid.value_on_grid. destruct (Nat.eqb _ _); [discriminate|].
  intros [= <-]. reflexivity.
Qed.

Lemma reads_fstar_model `{!External} (P : world -> Prop) (mhalo : list Q) (name : string) :
  name <> "fstar_kind"%string -> name <> "lower"%string ->
  (forall w, P w -> name = "fstar_dpl"%string -> attrs (self w) !! name <> None) ->
  reads P (fstar_model mhalo) (not_missing name).
Proof.
  intros Hk Hl Hd w HP. unfold fstar_model. rewrite bind_unfold.
  pose proof (reads_fstar_model_locals P mhalo name Hk Hl Hd w HP) as L.
  destruct (fstar_model_locals mhalo w) as [[e|[[a|] [b|]]] w']; try exact L;
    unfold raise; discriminate.
Qed.

Lemma reads_stellar_mass_on_grid `{!External} (P : world -> Prop) (file : string)
      (name : string) :
  name <> "h"%string -> name <> "fstar_kind"%string -> name <> "lower"%string ->
  (forall w, P w -> name = "fstar_dpl"%string -> attrs (self w) !! name <> None) ->
  reads P (stellar_mass_on_grid file) (not_missing name).
Proof.
  intros Hh Hk Hl Hd. unfold stellar_mass_on_grid.
  apply reads_bind; [apply reads_get_self|]. intros s.
  apply reads_bind; [apply reads_read_haloes, Hh|]. intros [srcpos_mpc srcmass_msun].
  apply reads_bind; [apply reads_fstar_model; assumption|]. intros [fstar fesc].
  apply reads_bind.
  { apply reads_lift. intros e He. rewrite (np_mul_Raise _ _ _ He). discriminate. }
  intros fesc_fstar. apply reads_bind.
  { apply reads_lift. intros e He. rewrite (np_mul_arr_Raise _ _ _ He). discriminate. }
  intros mstar_msun. apply reads_bind; [|intros binned; apply reads_ret].
  apply reads_lift. intros e He. rewrite (value_on_grid_Raise _ _ _ _ He). discriminate.
Qed.

Lemma hoare_save_then_normalize `{!External} (J : C2Ray_fstar -> Prop) (name : string)
      (file : string) (z : Q) (save_Mstar : option string)
      (srcpos : list (list Z)) (srcmstar : list Q) :
  name <> "alph_h"%string ->
  (name = "fstar_dpl"%string -> forall s, J s -> attrs s !! name <> None) ->
  hoare (on_self J)
        (save_sources save_Mstar z srcpos srcmstar;; normalize_flux file z srcpos srcmstar)
        (fun r w => on_self J w /\
                    match r with
                    | None => rank (self w) <> 0%Z
                    | Some x => rank (self w) = 0%Z /\ srcmstar <> [] /\ fst x = srcpos
                                /\ length (snd x) = length srcmstar
                    end)
        (not_missing name).
Proof.
  intros Ha Hd. eapply hoare_bind; [apply (hoare_save_sources J)|].
  intros []. apply hoare_normalize_flux; assumption.
Qed.

(** What [ionizing_flux] returns tells the rank of the process; the fluxes
    returned are never an empty array; and the AttributeError of an
    attribute that exists is not raised. *)
Lemma hoare_ionizing_flux `{!External} (J : C2Ray_fstar -> Prop) (name : string)
      (file : string) (z : Q) (save_Mstar : option string) :
  name <> "h"%string -> name <> "fstar_kind"%string -> name <> "lower"%string ->
  name <> "alph_h"%string ->
  (name = "fstar_dpl"%string -> forall s, J s -> attrs s !! name <> None) ->
  hoare (on_self J) (ionizing_flux file z save_Mstar)
        (fun r w => on_self J w /\
                    match r with
                    | None => rank (self w) <> 0%Z
                    | Some x => rank (self w) = 0%Z /\ snd x <> []
                    end)
        (not_missing name).
Proof.
  intros Hh Hk Hl Ha Hd. unfold ionizing_flux.
  eapply hoare_bind.
  { apply hoare_reads, (reads_stellar_mass_on_grid (on_self J) file name); try assumption.
    intros w HJ Heq. exact (Hd Heq _ HJ). }
  intros [srcpos srcmstar]. cbv beta iota.
  eapply hoare_conseq;
    [apply (hoare_save_then_normalize J name); assumption
    | intros w [HJ _]; exact HJ | | auto].
  intros [[sp nf]|] w [HJ Hr]; split; auto.
  destruct Hr as (Hrank & Hne & _ & Hlen). split; [exact Hrank|].
  simpl in *. intros ->. destruct srcmstar; [congruence | discriminate].
Qed.

(** ** The value returned by [ionizing_flux] *)

(** C2.  The [return] of [ionizing_flux] stands inside the block guarded by
    [self.rank == 0]: on any other rank the call never returns a pair
    [(srcpos, normflux)], whatever the inputs. *)
Theorem ionizing_flux_returns_only_on_rank0 `{!External} (file : string) (z : Q)
        (save_Mstar : option string) (w : world) :
  rank (self w) <> 0%Z ->
  forall x, fst (ionizing_flux file z save_Mstar w) <> Return (Some x).
Proof.
  intros Hrank x Hx.
  pose proof (hoare_ionizing_flux (fun s => rank s <> 0%Z) "" file z save_Mstar) as Hf.
  specialize (Hf ltac:(discriminate) ltac:(discriminate) ltac:(discriminate)
                 ltac:(discriminate) ltac:(discriminate) w Hrank).
  destruct (ionizing_flux file z save_Mstar w) as [[e|r] w']; simpl in Hx; [discriminate|].
  injection Hx as ->. destruct Hf as [Hne [Heq _]]. exact (Hne Heq).
Qed.

Lemma ionizing_flux_returns_only_on_rank0_witness :
  let flux := [19333080000000000000000000000000000000000000000000000000000000000000000000
               # 334532200000000000000000000000000000000000000000000000000000000000000000000;
               38666160000000000000000000000000000000000000000000000000000000000000000000
               # 334532200000000000000000000000000000000000000000000000000000000000000000000] in
  fst (ionizing_flux "halos.txt" 8 None
         (Bench.after _sources_init (Bench.new 0 0 Bench.dpl_sources)))
  = Return (Some ([[0; 0; 0]; [0; 3; 3]]%Z, flux))
  /\ fst (ionizing_flux "halos.txt" 8 None
            (Bench.after _sources_init (Bench.new 1 0 Bench.dpl_sources)))
     = Return None
  /\ fst (ionizing_flux "halos.txt" 8 None
            (Bench.after _sources_init (Bench.new 1 0 Bench.dpl_sources)))
     <> Return (Some ([[0; 0; 0]; [0; 3; 3]]%Z, flux)).
Proof.
  split; [vm_compute; reflexivity|]. split; [vm_compute; reflexivity|].
  apply (ionizing_flux_returns_only_on_rank0 "halos.txt" 8 None
           (Bench.after _sources_init (Bench.new 1 0 Bench.dpl_sources))).
  vm_compute. discriminate.
Defined.

(** ** A catalog without sources *)

Lemma lift_run {A} (r : result A) (w : world) : lift r w = (r, w).
Proof. reflexivity. Qed.

Lemma np_mul_arr_nil (a : ndval) (ys : list Q) : np_mul_arr a [] = Return ys -> ys = [].
Proof.
  destruct a as [x|xs]; simpl.
  - intros [= <-]. reflexivity.
  - unfold np_mul_arrays.
    destruct xs as [|x [|x' xs]]; simpl; try discriminate; intros [= <-]; reflexivity.
Qed.

Lemma stellar_mass_on_grid_empty `{!External} (file : string) (w : world) :
  fst (read_haloes (sources_basename (self w) +:+ file) (boxsize (self w)) w)
  = Return ([], []) ->
  match stellar_mass_on_grid file w with
  | (Return grid, w') => w' = w /\ grid = ([], [])
  | (Raise _, _) => True
  end.
Proof.
  intros Hread. unfold stellar_mass_on_grid.
  rewrite bind_unfold. cbn [get_self]. rewrite bind_unfold.
  pose proof (reads_read_haloes (fun _ => True)
                (sources_basename (self w) +:+ file) (boxsize (self w)) "" ltac:(discriminate)
                w I) as Hw.
  destruct (read_haloes _ _ w) as [[e|[pos mass]] w1]; [exact I|].
  simpl in Hread. injection Hread as -> ->. subst w1.
  rewrite bind_unfold.
  pose proof (reads_fstar_model (fun _ => True) [] "" ltac:(discriminate) ltac:(discriminate)
                ltac:(discriminate) w I) as Hm.
  destruct (fstar_model [] w) as [[e|[fstar fesc]] w1]; [exact I|]. subst w1.
  rewrite bind_unfold, lift_run.
  destruct (np_mul fesc fstar) as [e|ff]; [exact I|].
  rewrite bind_unfold, lift_run.
  destruct (np_mul_arr ff []) as [e|mstar] eqn:Emul; [exact I|].
  apply np_mul_arr_nil in Emul. subst mstar.
  rewrite bind_unfold, lift_run. simpl. auto.
Qed.

(** C8.  On a catalog that yields no source, [ionizing_flux] never returns
    a pair [(srcpos, normflux)]: on rank 0 the report takes the minimum of
    the empty array of stellar masses, which raises, and the call fails; on
    the other ranks it returns [None]. *)
Theorem ionizing_flux_empty_catalog_fails `{!External} (file : string) (z : Q)
        (save_Mstar : option string) (w : world) :
  fst (read_haloes (sources_basename (self w) +:+ file) (boxsize (self w)) w)
  = Return ([], []) ->
  (forall x, fst (ionizing_flux file z save_Mstar w) <> Return (Some x))
  /\ (rank (self w) = 0%Z -> exists e, fst (ionizing_flux file z save_Mstar w) = Raise e).
Proof.
  intros Hread.
  pose proof (stellar_mass_on_grid_empty file w Hread) as Hgrid.
  unfold ionizing_flux. rewrite bind_unfold.
  destruct (stellar_mass_on_grid file w) as [[e|grid] w1].
  { split; [discriminate | eauto]. }
  destruct Hgrid as [-> ->].
  pose proof (hoare_save_then_normalize (fun s => s = self w) "" file z save_Mstar [] []
                ltac:(discriminate) ltac:(discriminate) w eq_refl) as Hn.
  destruct ((save_sources save_Mstar z [] [];; normalize_flux file z [] []) w)
    as [[e|[x|]] w1]; simpl.
  - split; [discriminate | eauto].
  - destruct Hn as (_ & _ & Hne & _). congruence.
  - destruct Hn as [Hs Hr]. unfold on_self in Hs. rewrite Hs in Hr.
    split; [discriminate | intros H0; contradiction].
Qed.

Lemma ionizing_flux_empty_catalog_fails_witness :
  let w := Bench.after _sources_init (Bench.new 0 0 Bench.dpl_sources) in
  fst (ionizing_flux "empty.hdf5" 8 None w) = Raise ValueError
  /\ (forall x, fst (ionizing_flux "empty.hdf5" 8 None w) <> Return (Some x))
  /\ (rank (self w) = 0%Z -> exists e, fst (ionizing_flux "empty.hdf5" 8 None w) = Raise e).
Proof.
  split; [vm_compute; reflexivity|].
  apply (ionizing_flux_empty_catalog_fails "empty.hdf5" 8 None
           (Bench.after _sources_init (Bench.new 0 0 Bench.dpl_sources))).
  vm_compute. reflexivity.
Defined.

(** ** The parameter set behind the normalisation *)

Lemma value_eq_str_true (v : value) (text : string) :
  value_eq_str v text = true <-> v = VStr text.
Proof.
  destruct v as [q|k]; simpl.
  - split; discriminate.
  - rewrite String.eqb_eq. split; [intros ->; reflexivity | intros [= ->]; reflexivity].
Qed.

Lemma normalize_flux_needs_fstar_dpl `{!External} (file : string) (z : Q)
      (srcpos : list (list Z)) (srcmstar : list Q) (w : world) :
  attrs (self w) !! "fstar_dpl"%string = None ->
  forall r, fst (normalize_flux file z srcpos srcmstar w) <> Return r.
Proof.
  intros Hnone r. unfold normalize_flux. run_monad.
  repeat (case_scrutinee; run_monad); try discriminate.
  all: rewrite Hnone; discriminate.
Qed.

Ltac sources_init_cases Hrun :=
  unfold _sources_init, fmt_float in Hrun; run_monad_in Hrun;
  repeat (case_scrutinee_in Hrun; run_monad_in Hrun);
  try discriminate Hrun;
  injection Hrun as <-; cbn [self attrs].

(** C10.  [_sources_init] binds [self.fstar_dpl] when [fstar_kind] is ['dpl']
    and in no other case; the normalisation of [ionizing_flux] reads
    [self.fstar_dpl['Nion']] whatever the kind, so that without the attribute
    it cannot return.  Under ['dpl'] the attribute is a dict holding [Nion],
    and no run of [ionizing_flux] raises the AttributeError of [fstar_dpl]. *)
Theorem sources_init_defines_fstar_dpl `{!External} (w w' : world) :
  _sources_init w = (Return tt, w') ->
  (attrs (self w') !! "fstar_kind"%string = Some (PVal (VStr "dpl")) ->
     (exists d v, attrs (self w') !! "fstar_dpl"%string = Some (PDict d)
                  /\ d !! "Nion"%string = Some v)
     /\ forall file z save_Mstar,
          fst (ionizing_flux file z save_Mstar w') <> Raise (AttributeError "fstar_dpl"))
  /\ (attrs (self w') !! "fstar_kind"%string <> Some (PVal (VStr "dpl")) ->
        attrs (self w') !! "fstar_dpl"%string = attrs (self w) !! "fstar_dpl"%string)
  /\ (attrs (self w') !! "fstar_dpl"%string = None ->
        forall file z srcpos srcmstar r,
          fst (normalize_flux file z srcpos srcmstar w') <> Return r).
Proof.
  intros Hrun.
  assert (Hdef : attrs (self w') !! "fstar_kind"%string = Some (PVal (VStr "dpl")) ->
                 exists d v, attrs (self w') !! "fstar_dpl"%string = Some (PDict d)
                             /\ d !! "Nion"%string = Some v).
  { sources_init_cases Hrun; intros Hkind; simplify_map_eq;
      try (match goal with H : value_eq_str _ "dpl" = false |- _ => simpl in H end;
           discriminate);
      eexists _, _; split; reflexivity || (simplify_map_eq; reflexivity). }
  split; [|split].
  - intros Hkind. split; [exact (Hdef Hkind)|].
    intros file z save_Mstar Hraise.
    destruct (Hdef Hkind) as (d & v & Hdpl & _).
    pose proof (hoare_ionizing_flux
                  (fun s => attrs s !! "fstar_dpl"%string <> None) "fstar_dpl"
                  file z save_Mstar ltac:(discriminate) ltac:(discriminate)
                  ltac:(discriminate) ltac:(discriminate)
                  ltac:(intros _ s Hs; exact Hs) w') as Hf.
    unfold on_self in Hf. specialize (Hf ltac:(rewrite Hdpl; discriminate)).
    destruct (ionizing_flux file z save_Mstar w') as [[e|r] w1]; simpl in Hraise;
      [|discriminate].
    injection Hraise as ->. exact (Hf eq_refl).
  - sources_init_cases Hrun; intros Hkind; simplify_map_eq; try reflexivity.
    all: match goal with H : value_eq_str _ "dpl" = true |- _ =>
                           apply value_eq_str_true in H; subst end.
    all: contradiction.
  - intros Hnone file z srcpos srcmstar r.
    apply normalize_flux_needs_fstar_dpl, Hnone.
Qed.

Lemma sources_init_defines_fstar_dpl_witness :
  let w := Bench.new 0 0 Bench.dpl_sources in
  let w' := Bench.after _sources_init w in
  (attrs (self w') !! "fstar_kind"%string = Some (PVal (VStr "dpl")) ->
     (exists d v, attrs (self w') !! "fstar_dpl"%string = Some (PDict d)
                  /\ d !! "Nion"%string = Some v)
     /\ forall file z save_Mstar,
          fst (ionizing_flux file z save_Mstar w') <> Raise (AttributeError "fstar_dpl"))
  /\ (attrs (self w') !! "fstar_kind"%string <> Some (PVal (VStr "dpl")) ->
        attrs (self w') !! "fstar_dpl"%string = attrs (self w) !! "fstar_dpl"%string)
  /\ (attrs (self w') !! "fstar_dpl"%string = None ->
        forall file z srcpos srcmstar r,
          fst (normalize_flux file z srcpos srcmstar w') <> Return r).
Proof.
  apply (sources_init_defines_fstar_dpl (Bench.new 0 0 Bench.dpl_sources)
           (Bench.after _sources_init (Bench.new 0 0 Bench.dpl_sources))).
  vm_compute. reflexivity.
Defined.

(** ** Lifetime and normalisation *)

Lemma normalize_flux_rank0 `{!External} (file : string) (z : Q)
      (srcpos : list (list Z)) (srcmstar : list Q) (w : world)
      (alph nion : Q) (d : gmap string value) :
  rank (self w) = 0%Z ->
  srcmstar <> [] ->
  attrs (self w) !! "alph_h"%string = Some (PVal (VNum alph)) ->
  attrs (self w) !! "fstar_dpl"%string = Some (PDict d) ->
  d !! "Nion"%string = Some (VNum nion) ->
  fst (normalize_flux file z srcpos srcmstar w)
  = Return (Some (srcpos,
                  map (fun m => msun2g * nion * m
                                / (m_p * (1 / (alph * (1 + z) * cosmo_H (cosmology (self w)) z))
                                   * S_star_ref))
                      srcmstar)).
Proof.
  intros Hrank Hne Halph Hdpl Hnion.
  destruct srcmstar as [|m ms]; [congruence|].
  unfold normalize_flux. run_monad.
  rewrite Halph. run_monad. rewrite Hdpl. run_monad. rewrite Hnion. run_monad.
  rewrite Hrank. reflexivity.
Qed.

(** C4.  On rank 0, with the parameters of the double power law loaded and
    a catalog that has sources, [ionizing_flux] returns for every occupied
    cell of stellar mass [m] (in Msun) the flux
    [msun2g * Nion * m / (m_p * ts * 1e48)], where the source lifetime is
    [ts = 1 / (alph_h * (1 + z) * H(z))] with [H(z)] in cgs units: a ratio to
    the reference luminosity [1e48]. *)
Theorem ionizing_flux_normalization `{!External} (file : string) (z : Q)
        (save_Mstar : option string) (w : world)
        (srcpos : list (list Z)) (srcmstar : list Q)
        (alph nion : Q) (d : gmap string value) :
  rank (self w) = 0%Z ->
  fst (stellar_mass_on_grid file w) = Return (srcpos, srcmstar) ->
  srcmstar <> [] ->
  attrs (self w) !! "alph_h"%string = Some (PVal (VNum alph)) ->
  attrs (self w) !! "fstar_dpl"%string = Some (PDict d) ->
  d !! "Nion"%string = Some (VNum nion) ->
  let ts := 1 / (alph * (1 + z) * cosmo_H (cosmology (self w)) z) in
  fst (ionizing_flux file z save_Mstar w)
  = Return (Some (srcpos,
                  map (fun m => msun2g * nion * m / (m_p * ts * inject_Z (10 ^ 48)))
                      srcmstar)).
Proof.
  intros Hrank Hgrid Hne Halph Hdpl Hnion ts.
  unfold ionizing_flux. rewrite bind_unfold.
  pose proof (reads_stellar_mass_on_grid (fun _ => True) file ""
                ltac:(discriminate) ltac:(discriminate) ltac:(discriminate)
                ltac:(discriminate) w I) as Hw.
  destruct (stellar_mass_on_grid file w) as [[e|grid] w1]; simpl in Hgrid; [discriminate|].
  injection Hgrid as ->. subst w1. cbv beta iota. rewrite bind_unfold.
  pose proof (hoare_save_sources (fun s => s = self w) save_Mstar z srcpos srcmstar
                (fun _ => False) w eq_refl) as Hs.
  destruct (save_sources save_Mstar z srcpos srcmstar w) as [[e|[]] w1]; [contradiction|].
  unfold on_self in Hs.
  rewrite (normalize_flux_rank0 file z srcpos srcmstar w1 alph nion d);
    rewrite ?Hs; auto.
Qed.

Lemma ionizing_flux_normalization_witness :
  let w := Bench.after _sources_init (Bench.new 0 0 Bench.dpl_sources) in
  let ts := 1 / ((3 # 4) * (1 + 8) * cosmo_H Bench.planck 8) in
  fst (ionizing_flux "halos.txt" 8 (Some "out"%string) w)
  = Return (Some ([[0; 0; 0]; [0; 3; 3]]%Z,
                  map (fun m => msun2g * 2000 * m / (m_p * ts * inject_Z (10 ^ 48)))
                      [20000 # 50; 40000 # 50])).
Proof.
  apply (ionizing_flux_normalization "halos.txt" 8 (Some "out"%string)
           (Bench.after _sources_init (Bench.new 0 0 Bench.dpl_sources))
           [[0; 0; 0]; [0; 3; 3]]%Z [20000 # 50; 40000 # 50] (3 # 4) 2000
           (<["al_esc" := VNum (1 # 2)]> (<["Mp_esc" := VNum 1000]> (<["f0_esc" := VNum (1 # 5)]> (
            <["g4" := VNum 4]> (<["g3" := VNum 3]> (<["g2" := VNum 2]> (<["g1" := VNum 1]> (
            <["Mp" := VNum 1000]> (<["Mt" := VNum 100]> (<["f0" := VNum (1 # 10)]> (
            <["Nion" := VNum 2000]> ∅)))))))))))%string).
  - reflexivity.
  - vm_compute. reflexivity.
  - discriminate.
  - vm_compute. reflexivity.
  - vm_compute. reflexivity.
  - vm_compute. reflexivity.
Defined.

(** ** The clumping factor *)

(** C5.  With [z] bracketed by the knots [(zlow, zhigh)] of the parameter
    table, [read_clumping] weighs the row of [zlow] by
    [w_l = (z - zlow)/(zhigh - zlow)] and the row of [zhigh] by
    [w_h = (zhigh - z)/(zhigh - zlow)] (the weights sum to 1), computes per
    cell [x = ln(1 + density/mean(density))] and
    [clump = 10^(a*x^2 + b*x^2 + c)], multiplies the array bound to
    [self.ndens] by [clump] in place (same reference, new contents, nothing
    else in the heap touched) and returns [clump]. *)
Theorem read_clumping_spec `{!External} (parfile : string) (z : Q) (w : world)
        (zlow zhigh al bl cl ah bh ch : Q) (l : nat) (nd : list Q) :
  find_bins z (Arr1 (map fst (pd_read_csv parfile))) = Return (zlow, zhigh) ->
  df_loc (pd_read_csv parfile) zlow = Return [al; bl; cl] ->
  df_loc (pd_read_csv parfile) zhigh = Return [ah; bh; ch] ->
  ~ zhigh == zlow ->
  attrs (self w) !! "ndens"%string = Some (PArr l) ->
  heap w !! l = Some nd ->
  nd <> [] ->
  let w_l := (z - zlow) / (zhigh - zlow) in
  let w_h := (zhigh - z) / (zhigh - zlow) in
  let a := al * w_l + ah * w_h in
  let b := bl * w_l + bh * w_h in
  let c := cl * w_l + ch * w_h in
  let x := map (fun d => np_log (1 + d / np_mean nd)) nd in
  let clump := map (fun x => pow10 (a * x ^ 2 + b * x ^ 2 + c)) x in
  w_l + w_h == 1 /\
  exists w',
    read_clumping parfile z w = (Return clump, w')
    /\ self w' = self w
    /\ heap w' = <[l := zip_with Qmult nd clump]> (heap w).
Proof.
  intros Hbins Hlow Hhigh Hknots Hattr Hheap Hne w_l w_h a b c x clump. split.
  { unfold w_l, w_h. field. intros H0. apply Hknots. lra. }
  assert (Hl : (l < length (heap w))%nat) by (eapply lookup_lt_Some; eassumption).
  destruct nd as [|d0 nds]; [congruence|].
  unfold read_clumping. run_monad.
  rewrite Hbins. run_monad. rewrite Hlow. run_monad. rewrite Hhigh. run_monad.
  cbn [map zip_with unpack3]. run_monad. rewrite Hattr. run_monad. rewrite Hheap. run_monad.
  fold w_l w_h a b c.
  destruct (Z.eqb (rank (self w)) 0); run_monad.
  - cbn [map np_min np_max]. run_monad. rewrite Hattr. run_monad.
    rewrite list_lookup_insert_eq by exact Hl.
    cbn [zip_with np_min np_max]. run_monad.
    eexists. split; [reflexivity|]. split; reflexivity.
  - eexists. split; [reflexivity|]. split; reflexivity.
Qed.

Lemma read_clumping_spec_witness :
  let w_l := (7 - 6) / (8 - 6) in
  let w_h := (8 - 7) / (8 - 6) in
  let a := 1 * w_l + 3 * w_h in
  let b := 2 * w_l + 4 * w_h in
  let c := 3 * w_l + 5 * w_h in
  let x := map (fun d => np_log (1 + d / np_mean [1; 3])) [1; 3] in
  let clump := map (fun x => pow10 (a * x ^ 2 + b * x ^ 2 + c)) x in
  w_l + w_h == 1 /\
  exists w',
    read_clumping "clumping.csv" 7 Bench.gridded = (Return clump, w')
    /\ self w' = self Bench.gridded
    /\ heap w' = <[0%nat := zip_with Qmult [1; 3] clump]> (heap Bench.gridded).
Proof.
  apply (read_clumping_spec "clumping.csv" 7 Bench.gridded 6 8 1 2 3 3 4 5 0%nat [1; 3]).
  - vm_compute. reflexivity.
  - vm_compute. reflexivity.
  - vm_compute. reflexivity.
  - intros Heq. vm_compute in Heq. discriminate Heq.
  - vm_compute. reflexivity.
  - vm_compute. reflexivity.
  - discriminate.
Defined.

(** ** Initialising the material fields *)

Lemma lookup_snoc {A} (h : list A) (a : A) : (h ++ [a]) !! length h = Some a.
Proof. apply list_lookup_middle. reflexivity. Qed.

Lemma lookup_snoc_lt {A} (h : list A) (a x : A) (i : nat) :
  h !! i = Some x -> (h ++ [a]) !! i = Some x.
Proof. apply lookup_app_l_Some. Qed.

Lemma Forall_replicate_scaled (n : nat) (q : Q) :
  Forall (fun c => c == q) (map (Qmult q) (replicate n 1)).
Proof.
  induction n as [|n IH]; simpl; constructor; [ring | exact IH].
Qed.

(** C9, as the code has it.  After a fresh [_material_init] the arrays
    [xh], [temp] and [phi_ion] hold [xh0], [temp0] and [0] in every cell of
    the grid; the array [ndens] holds in cell [i] the product of [avg_dens]
    and whatever [np.empty] found in memory there, which is [avg_dens] only
    if the memory happened to hold 1. *)
Theorem material_init_fresh `{!External} (w : world) (m : gmap string value)
        (xh0 temp0 avg_dens : Q) :
  truthy (resume (self w)) = false ->
  _ld (self w) !! "Material"%string = Some m ->
  m !! "xh0"%string = Some (VNum xh0) ->
  m !! "temp0"%string = Some (VNum temp0) ->
  m !! "avg_dens"%string = Some (VNum avg_dens) ->
  exists w' l_ndens l_xh l_temp l_phi a_ndens a_xh a_temp a_phi,
    _material_init w = (Return tt, w')
    /\ attrs (self w') !! "ndens"%string = Some (PArr l_ndens)
    /\ attrs (self w') !! "xh"%string = Some (PArr l_xh)
    /\ attrs (self w') !! "temp"%string = Some (PArr l_temp)
    /\ attrs (self w') !! "phi_ion"%string = Some (PArr l_phi)
    /\ heap w' !! l_ndens = Some a_ndens /\ heap w' !! l_xh = Some a_xh
    /\ heap w' !! l_temp = Some a_temp /\ heap w' !! l_phi = Some a_phi
    /\ Forall (fun c => c == xh0) a_xh /\ length a_xh = ncells (shape (self w))
    /\ Forall (fun c => c == temp0) a_temp /\ length a_temp = ncells (shape (self w))
    /\ a_phi = replicate (ncells (shape (self w))) 0
    /\ a_ndens = map (fun i => avg_dens * uninitialised i) (seq 0 (ncells (shape (self w)))).
Proof.
  intros Hfresh Hmat Hxh Htemp Havg.
  unfold _material_init. run_monad. rewrite Hfresh. run_monad.
  repeat (first [rewrite Hmat | rewrite Hxh | rewrite Htemp | rewrite Havg]; run_monad).
  do 9 eexists. split; [reflexivity|]. cbn [self attrs heap].
  repeat (split; [simplify_map_eq; reflexivity|]).
  split; [do 3 apply lookup_snoc_lt; apply lookup_snoc|].
  split; [do 2 apply lookup_snoc_lt; apply lookup_snoc|].
  split; [apply lookup_snoc_lt, lookup_snoc|].
  split; [apply lookup_snoc|].
  split; [apply Forall_replicate_scaled|].
  split; [unfold np_ones; rewrite length_map, length_replicate; reflexivity|].
  split; [apply Forall_replicate_scaled|].
  split; [unfold np_ones; rewrite length_map, length_replicate; reflexivity|].
  split; [reflexivity|].
  unfold np_empty. rewrite map_map. reflexivity.
Qed.

Lemma material_init_fresh_witness :
  let w := Bench.new 0 0 Bench.dpl_sources in
  (exists w' l_ndens l_xh l_temp l_phi a_ndens a_xh a_temp a_phi,
    _material_init w = (Return tt, w')
    /\ attrs (self w') !! "ndens"%string = Some (PArr l_ndens)
    /\ attrs (self w') !! "xh"%string = Some (PArr l_xh)
    /\ attrs (self w') !! "temp"%string = Some (PArr l_temp)
    /\ attrs (self w') !! "phi_ion"%string = Some (PArr l_phi)
    /\ heap w' !! l_ndens = Some a_ndens /\ heap w' !! l_xh = Some a_xh
    /\ heap w' !! l_temp = Some a_temp /\ heap w' !! l_phi = Some a_phi
    /\ Forall (fun c => c == 1 # 1000) a_xh /\ length a_xh = ncells [2; 1; 1]%nat
    /\ Forall (fun c => c == 10000) a_temp /\ length a_temp = ncells [2; 1; 1]%nat
    /\ a_phi = replicate (ncells [2; 1; 1]%nat) 0
    /\ a_ndens = map (fun i => (1 # 10000000) * uninitialised i) (seq 0 (ncells [2; 1; 1]%nat)))
  /\ heap (Bench.after _material_init w) !! 0%nat
     = Some [(1 # 10000000) * 0; (1 # 10000000) * 0]
  /\ ~ (1 # 10000000) * 0 == 1 # 10000000.
Proof.
  split; [|split].
  - apply (material_init_fresh (Bench.new 0 0 Bench.dpl_sources) Bench.material_section
             (1 # 1000) 10000 (1 # 10000000)); vm_compute; reflexivity.
  - reflexivity.
  - intros Heq. vm_compute in Heq. discriminate Heq.
Defined.

(** ** Resuming a run *)

Ltac heap_lookup :=
  first [ exact (lookup_snoc _ _) | apply lookup_snoc_lt; heap_lookup ].

Ltac lookup_attrs_in H :=
  repeat (rewrite lookup_insert_eq in H
          || rewrite lookup_insert_ne in H by discriminate).

(** C6.  On resume [_redshift_init] sets the redshift to the minimum found
    among the outputs and brackets it against the density table and against
    the source table; [_material_init] then reads [xh] and [phi_ion] from the
    files of that redshift chosen by extension, and sets the temperature to
    [temp0].  The density is read by [read_density] into a new array, but
    [read_density] returns nothing and [_material_init] assigns that to
    [self.ndens]: the attribute ends bound to [None], the array is lost. *)
Theorem resume_init_loses_density `{!External} (w w' : world) :
  truthy (resume (self w)) = true ->
  (_redshift_init;; _material_init) w = (Return tt, w') ->
  exists zmin bd bs temp0 l_temp,
    np_min (get_redshifts_from_output (results_basename (self w))) = Return zmin
    /\ attrs (self w') !! "zred"%string = Some (PVal (VNum zmin))
    /\ find_bins zmin (np_loadtxt (density_basename (self w) +:+ "redshift_density.txt"))
       = Return bd
    /\ attrs (self w') !! "prev_zdens"%string = Some (PVal (VNum (snd bd)))
    /\ find_bins zmin (np_loadtxt (sources_basename (self w) +:+ "redshift_sources.txt"))
       = Return bs
    /\ attrs (self w') !! "prev_zsourc"%string = Some (PVal (VNum (snd bs)))
    /\ attrs (self w') !! "ndens"%string = Some PNone
    /\ heap w' !! length (heap w)
       = Some (map (fun d => critical_density0 (cosmology (self w)) * Ob0 (cosmology (self w))
                             * (1 + d) / (mean_molecular (self w) * m_p)
                             * (1 + snd bd) ^ 3)
                   (load_density_field (boxsize (self w)) (Nmesh (self w))
                      (Om0 (cosmology (self w)))
                      (density_basename (self w) +:+ "CDM_200Mpc_2048."
                       +:+ fmt_05d (resume (self w)) +:+ ".den.256.0")))
    /\ (exists m, _ld (self w) !! "Material"%string = Some m
                  /\ m !! "temp0"%string = Some (VNum temp0))
    /\ attrs (self w') !! "temp"%string = Some (PArr l_temp)
    /\ heap w' !! l_temp = Some (map (Qmult temp0) (np_ones (shape (self w))))
    /\ (get_extension_in_folder (results_basename (self w)) = ".dat"%string ->
        exists l_xh l_phi,
          attrs (self w') !! "xh"%string = Some (PArr l_xh)
          /\ heap w' !! l_xh
             = Some (read_cbin (results_basename (self w) +:+ "xfrac_"
                                +:+ fmt_3f zmin +:+ ".dat") 64)
          /\ attrs (self w') !! "phi_ion"%string = Some (PArr l_phi)
          /\ heap w' !! l_phi
             = Some (read_cbin (results_basename (self w) +:+ "IonRates_"
                                +:+ fmt_3f zmin +:+ ".dat") 32))
    /\ (get_extension_in_folder (results_basename (self w)) = ".npy"%string ->
        exists l_xh l_phi,
          attrs (self w') !! "xh"%string = Some (PArr l_xh)
          /\ heap w' !! l_xh
             = Some (np_load (results_basename (self w) +:+ "xfrac_"
                              +:+ fmt_3f zmin +:+ ".npy"))
          /\ attrs (self w') !! "phi_ion"%string = Some (PArr l_phi)
          /\ heap w' !! l_phi
             = Some (np_load (results_basename (self w) +:+ "IonRates_"
                              +:+ fmt_3f zmin +:+ ".npy"))).
Proof.
  intros Hresume Hrun. destruct w as [[] hp out]. cbn in Hresume.
  unfold _redshift_init, _material_init, read_density in Hrun; run_monad_in Hrun.
  repeat (lookup_attrs_in Hrun; case_scrutinee_in Hrun; run_monad_in Hrun);
    try discriminate;
    injection Hrun as <-;
    cbn [self attrs heap rank boxsize Nmesh shape cosmology sources_basename
         density_basename results_basename resume zred_0 mean_molecular _ld].
  all: do 5 eexists.
  all: repeat match goal with |- _ /\ _ => split end.
  all: try (first [reflexivity | eassumption]).
  all: try (simplify_map_eq; reflexivity).
  all: try (eexists; split; eassumption).
  all: try heap_lookup.
  all: intros Hext.
  all: try match goal with
           | H : String.eqb _ _ = _ |- _ =>
               rewrite Hext in H; vm_compute in H; discriminate H
           end.
  all: do 2 eexists.
  all: repeat match goal with |- _ /\ _ => split end.
  all: try (simplify_map_eq; reflexivity).
  all: try heap_lookup.
Qed.

Lemma resume_init_loses_density_witness :
  let w := Bench.new 0 1 Bench.dpl_sources in
  let w' := Bench.after (_redshift_init;; _material_init) w in
  truthy (resume (self w)) = true
  /\ (_redshift_init;; _material_init) w = (Return tt, w')
  /\ attrs (self w') !! "zred"%string = Some (PVal (VNum 8))
  /\ attrs (self w') !! "ndens"%string = Some PNone.
Proof.
  split; [reflexivity|]. split; [vm_compute; reflexivity|]. split; [vm_compute; reflexivity|].
  destruct (resume_init_loses_density (Bench.new 0 1 Bench.dpl_sources)
              (Bench.after (_redshift_init;; _material_init)
                           (Bench.new 0 1 Bench.dpl_sources)))
    as (zmin & bd & bs & temp0 & l_temp & _ & _ & _ & _ & _ & _ & Hndens & _).
  - reflexivity.
  - vm_compute. reflexivity.
  - exact Hndens.
Defined.

(** * Further properties of the methods *)

(** ** The periodic wrap of a text catalog *)






(** X2.  The wrap does not bring back a coordinate that is more than one
    box size out of the box: a shifted coordinate above [2 * boxsize], or
    below [- boxsize], is mapped to a negative coordinate. *)
Theorem wrap_beyond_one_box (boxsize : Q) :
  0 <= boxsize ->
  (forall x, 2 * boxsize < x -> wrap boxsize x < 0)
  /\ (forall x, x < - boxsize -> wrap boxsize x < 0).
Proof.
  intros Hb. split; intros x Hx; unfold wrap.
  - rewrite wrap_high_above by lra. rewrite wrap_low_below by lra. lra.
  - assert (E : wrap_high boxsize x = x).
    { unfold wrap_high. replace (Qltb boxsize x) with false; [reflexivity|].
      symmetry. apply Qltb_ge. lra. }
    rewrite E, wrap_low_below by lra. lra.
Qed.

Lemma wrap_beyond_one_box_witness :
  ((forall x, 2 * 10 < x -> wrap 10 x < 0) /\ (forall x, x < - (10) -> wrap 10 x < 0))
  /\ wrap 10 25 == - (5) /\ wrap 10 (- (15)) == - (5).
Proof.
  split; [apply (wrap_beyond_one_box 10); discriminate|].
  split; reflexivity.
Defined.

(** ** What [ionizing_flux] touches *)

Section LogsOnly.
Context {A B : Type}.

Lemma logs_only_bind (m : M A) (f : A -> M B) :
  logs_only m -> (forall a, logs_only (f a)) -> logs_only (m ≫= f).
Proof.
  intros Hm Hf w. rewrite bind_unfold. specialize (Hm w).
  destruct (m w) as [[e|a] w1]; [exact Hm|].
  simpl in Hm. destruct Hm as (Hs & Hh & out1 & Ho).
  destruct (Hf a w1) as (Hs' & Hh' & out2 & Ho').
  split; [congruence|]. split; [congruence|].
  exists (out1 ++ out2). rewrite Ho', Ho, app_assoc. reflexivity.
Qed.

Lemma logs_only_same (m : M A) : (forall w, snd (m w) = w) -> logs_only m.
Proof.
  intros H w. rewrite H. split; [reflexivity|]. split; [reflexivity|].
  exists []. rewrite app_nil_r. reflexivity.
Qed.
End LogsOnly.

Lemma logs_only_emit (r : report) : logs_only (emit r).
Proof. intros w. simpl. eauto. Qed.

Ltac logs_only_leaf :=
  apply logs_only_same; intros ?;
  repeat first
    [ progress unfold getattr, dict_get, py_num, as_num, py_dict, py_lower, lift, raise,
        get_self, mret, M_ret
    | match goal with
      | |- context [match ?x with _ => _ end] => destruct x
      end ];
  reflexivity.

Ltac logs_only_step :=
  cbv beta;
  lazymatch goal with
  | |- logs_only (_ ≫= _) => apply logs_only_bind; [|intros ?]
  | |- logs_only (emit _) => apply logs_only_emit
  | |- logs_only (match ?x with _ => _ end) => destruct x
  | |- logs_only (mret _) => logs_only_leaf
  | |- logs_only (raise _) => logs_only_leaf
  | |- logs_only (lift _) => logs_only_leaf
  | |- logs_only get_self => logs_only_leaf
  | |- logs_only (getattr _) => logs_only_leaf
  | |- logs_only (dict_get _ _) => logs_only_leaf
  | |- logs_only (as_num _) => logs_only_leaf
  | |- logs_only (py_num _) => logs_only_leaf
  | |- logs_only (py_dict _) => logs_only_leaf
  | |- logs_only (py_lower _) => logs_only_leaf
  end.

Lemma logs_only_read_haloes `{!External} (halo_file : string) (box_len : Q) :
  logs_only (read_haloes halo_file box_len).
Proof. unfold read_haloes. repeat logs_only_step. Qed.

Lemma logs_only_fstar_model `{!External} (mhalo : list Q) : logs_only (fstar_model mhalo).
Proof. unfold fstar_model, fstar_model_locals. repeat logs_only_step. Qed.

Lemma logs_only_stellar_mass_on_grid `{!External} (file : string) :
  logs_only (stellar_mass_on_grid file).
Proof.
  unfold stellar_mass_on_grid.
  apply logs_only_bind; [logs_only_leaf|]. intros s.
  apply logs_only_bind; [apply logs_only_read_haloes|]. intros [pos mass].
  apply logs_only_bind; [apply logs_only_fstar_model|]. intros [fstar fesc].
  repeat logs_only_step.
Qed.

Lemma logs_only_save_sources `{!External} (save_Mstar : option string) (z : Q)
      (srcpos : list (list Z)) (srcmstar : list Q) :
  logs_only (save_sources save_Mstar z srcpos srcmstar).
Proof. unfold save_sources. repeat logs_only_step. Qed.

Lemma logs_only_normalize_flux `{!External} (file : string) (z : Q)
      (srcpos : list (list Z)) (srcmstar : list Q) :
  logs_only (normalize_flux file z srcpos srcmstar).
Proof. unfold normalize_flux. repeat logs_only_step. Qed.

(** X3.  Whatever its arguments and whether it returns or raises,
    [ionizing_flux] leaves the object and every array of the heap as they
    were; all it does to the world is add reports to the output: log lines,
    prints, and the folder and file of [save_Mstar]. *)
Theorem ionizing_flux_logs_only `{!External} (file : string) (z : Q)
        (save_Mstar : option string) (w : world) :
  self (snd (ionizing_flux file z save_Mstar w)) = self w
  /\ heap (snd (ionizing_flux file z save_Mstar w)) = heap w
  /\ exists out, stdout (snd (ionizing_flux file z save_Mstar w)) = stdout w ++ out.
Proof.
  revert w. change (logs_only (ionizing_flux file z save_Mstar)).
  unfold ionizing_flux.
  apply logs_only_bind; [apply logs_only_stellar_mass_on_grid|]. intros [srcpos srcmstar].
  apply logs_only_bind; [apply logs_only_save_sources|]. intros [].
  apply logs_only_normalize_flux.
Qed.

(** ** What [ionizing_flux] needs to return *)

Ltac destruct_world w :=
  let s := fresh "s" in
  destruct w as [s ?hp ?out];
  destruct s as [?rk ?bs ?nm ?shp ?cosmo ?src_base ?dens_base ?res_base ?rsm ?z0 ?mu
                 ?config ?dict].

Lemma fstar_model_Return `{!External} (mhalo : list Q) (w w' : world) (x : ndval * ndval) :
  fstar_model mhalo w = (Return x, w') ->
  exists k d,
    attrs (self w) !! "fstar_kind"%string = Some (PVal (VStr k))
    /\ str_in (lower k) ["dpl"; "mass_dependent"]%string = true
    /\ attrs (self w) !! "fstar_dpl"%string = Some (PDict d).
Proof.
  intros Hrun. destruct_world w.
  unfold fstar_model, fstar_model_locals in Hrun. run_monad_in Hrun.
  repeat (case_scrutinee_in Hrun; run_monad_in Hrun); try discriminate Hrun.
  subst. cbn [self attrs]. eexists _, _. repeat split; eassumption.
Qed.

Lemma normalize_flux_Return `{!External} (file : string) (z : Q) (srcpos : list (list Z))
      (srcmstar : list Q) (w w' : world) (r : option (list (list Z) * list Q)) :
  normalize_flux file z srcpos srcmstar w = (Return r, w') ->
  exists alph d nion,
    attrs (self w) !! "alph_h"%string = Some (PVal (VNum alph))
    /\ attrs (self w) !! "fstar_dpl"%string = Some (PDict d)
    /\ d !! "Nion"%string = Some (VNum nion).
Proof.
  intros Hrun. destruct_world w.
  unfold normalize_flux in Hrun. run_monad_in Hrun.
  repeat (case_scrutinee_in Hrun; run_monad_in Hrun); try discriminate Hrun.
  all: subst; cbn [self attrs]; eexists _, _, _; repeat split; eassumption.
Qed.

Lemma ionizing_flux_stages `{!External} (file : string) (z : Q)
      (save_Mstar : option string) (w : world) (r : option (list (list Z) * list Q)) :
  fst (ionizing_flux file z save_Mstar w) = Return r ->
  exists srcpos srcmstar w1 w2 w3,
    stellar_mass_on_grid file w = (Return (srcpos, srcmstar), w1)
    /\ self w1 = self w /\ self w2 = self w
    /\ normalize_flux file z srcpos srcmstar w2 = (Return r, w3).
Proof.
  intros Hrun. unfold ionizing_flux in Hrun. rewrite bind_unfold in Hrun.
  pose proof (logs_only_stellar_mass_on_grid file w) as (Hself & _).
  destruct (stellar_mass_on_grid file w) as [[e|[srcpos srcmstar]] w1] eqn:Egrid;
    [discriminate Hrun|].
  cbn [snd] in Hself. cbv beta iota in Hrun. rewrite bind_unfold in Hrun.
  pose proof (logs_only_save_sources save_Mstar z srcpos srcmstar w1) as (Hself2 & _).
  destruct (save_sources save_Mstar z srcpos srcmstar w1) as [[e|[]] w2];
    [discriminate Hrun|].
  cbn [snd] in Hself2.
  destruct (normalize_flux file z srcpos srcmstar w2) as [[e|r'] w3] eqn:Enorm;
    [discriminate Hrun|].
  cbn [fst] in Hrun. injection Hrun as ->.
  exists srcpos, srcmstar, w1, w2, w3.
  split; [reflexivity|]. split; [exact Hself|]. split; [congruence | exact Enorm].
Qed.

(** X4.  [ionizing_flux] returns (a pair, or [None] off rank 0) only on an
    object whose [fstar_kind] is, up to letter case, ['dpl'] or
    ['mass_dependent'], whose [fstar_dpl] is a dict with a numeric [Nion],
    and whose [alph_h] is a number; in every other state the call raises. *)
Theorem ionizing_flux_requires_dpl_state `{!External} (file : string) (z : Q)
        (save_Mstar : option string) (w : world) (r : option (list (list Z) * list Q)) :
  fst (ionizing_flux file z save_Mstar w) = Return r ->
  exists k d nion alph,
    attrs (self w) !! "fstar_kind"%string = Some (PVal (VStr k))
    /\ str_in (lower k) ["dpl"; "mass_dependent"]%string = true
    /\ attrs (self w) !! "fstar_dpl"%string = Some (PDict d)
    /\ d !! "Nion"%string = Some (VNum nion)
    /\ attrs (self w) !! "alph_h"%string = Some (PVal (VNum alph)).
Proof.
  intros Hrun.
  apply ionizing_flux_stages in Hrun
    as (srcpos & srcmstar & w1 & w2 & w3 & Egrid & _ & Hself2 & Enorm).
  apply normalize_flux_Return in Enorm as (alph & d & nion & Halph & Hdpl & Hnion).
  rewrite Hself2 in Halph, Hdpl.
  (* the model ran on the catalog *)
  unfold stellar_mass_on_grid in Egrid. rewrite bind_unfold in Egrid.
  cbn [get_self] in Egrid. rewrite bind_unfold in Egrid.
  pose proof (logs_only_read_haloes (sources_basename (self w) +:+ file) (boxsize (self w)) w)
    as (Hs0 & _).
  destruct (read_haloes _ _ w) as [[e|[pos mass]] w0]; [discriminate Egrid|].
  cbn [snd] in Hs0. rewrite bind_unfold in Egrid.
  destruct (fstar_model mass w0) as [[e|x] w0'] eqn:Emodel; [discriminate Egrid|].
  apply fstar_model_Return in Emodel as (k & d' & Hkind & Hin & Hdpl').
  rewrite Hs0 in Hkind. exists k, d, nion, alph. auto.
Qed.

Lemma ionizing_flux_requires_dpl_state_witness :
  let w := Bench.after _sources_init (Bench.new 1 0 Bench.dpl_sources) in
  exists k d nion alph,
    attrs (self w) !! "fstar_kind"%string = Some (PVal (VStr k))
    /\ str_in (lower k) ["dpl"; "mass_dependent"]%string = true
    /\ attrs (self w) !! "fstar_dpl"%string = Some (PDict d)
    /\ d !! "Nion"%string = Some (VNum nion)
    /\ attrs (self w) !! "alph_h"%string = Some (PVal (VNum alph)).
Proof.
  apply (ionizing_flux_requires_dpl_state "halos.txt" 8 None
           (Bench.after _sources_init (Bench.new 1 0 Bench.dpl_sources)) None).
  vm_compute. reflexivity.
Defined.

Lemma sources_init_fstar_dpl_origin `{!External} (w w' : world) :
  _sources_init w = (Return tt, w') ->
  attrs (self w') !! "fstar_dpl"%string = attrs (self w) !! "fstar_dpl"%string
  \/ attrs (self w') !! "fstar_kind"%string = Some (PVal (VStr "dpl")).
Proof.
  intros Hrun. sources_init_cases Hrun; simplify_map_eq; auto.
  all: match goal with H : value_eq_str _ "dpl" = true |- _ =>
                         apply value_eq_str_true in H; subst end.
  all: right; reflexivity.
Qed.

(** X5.  Starting from an object on which [fstar_dpl] is not yet bound,
    the only configured [fstar_kind] with which [_sources_init] leaves an
    object that [ionizing_flux] can run on is the exact string ['dpl']: the
    kind ['mass_dependent'], or ['DPL'], which [fstar_model] accepts, gets no
    parameters from [_sources_init], and the call raises. *)
Theorem ionizing_flux_after_sources_init `{!External} (w w' : world) (file : string)
        (z : Q) (save_Mstar : option string) (r : option (list (list Z) * list Q)) :
  attrs (self w) !! "fstar_dpl"%string = None ->
  _sources_init w = (Return tt, w') ->
  fst (ionizing_flux file z save_Mstar w') = Return r ->
  attrs (self w') !! "fstar_kind"%string = Some (PVal (VStr "dpl")).
Proof.
  intros Hnone Hinit Hrun.
  apply ionizing_flux_stages in Hrun
    as (srcpos & srcmstar & w1 & w2 & w3 & _ & _ & Hself2 & Enorm).
  apply normalize_flux_Return in Enorm as (alph & d & nion & _ & Hdpl & _).
  rewrite Hself2 in Hdpl.
  destruct (sources_init_fstar_dpl_origin w w' Hinit) as [Hsame|Hkind]; [|exact Hkind].
  rewrite Hsame, Hnone in Hdpl. discriminate Hdpl.
Qed.

Lemma ionizing_flux_after_sources_init_witness :
  attrs (self (Bench.after _sources_init (Bench.new 1 0 Bench.dpl_sources)))
    !! "fstar_kind"%string = Some (PVal (VStr "dpl")).
Proof.
  apply (ionizing_flux_after_sources_init (Bench.new 1 0 Bench.dpl_sources)
           (Bench.after _sources_init (Bench.new 1 0 Bench.dpl_sources))
           "halos.txt" 8 None None); vm_compute; reflexivity.
Defined.

(** X6.  A catalog whose name ends in none of [.hdf5], [.dat], [.txt] is
    not refused as such: no branch of [read_haloes] assigns its result, and
    [ionizing_flux] raises UnboundLocalError, having changed nothing. *)
Theorem ionizing_flux_unsupported_extension `{!External} (file : string) (z : Q)
        (save_Mstar : option string) (w : world) :
  endswith (sources_basename (self w) +:+ file) ".hdf5" = false ->
  endswith (sources_basename (self w) +:+ file) ".dat" = false ->
  endswith (sources_basename (self w) +:+ file) ".txt" = false ->
  ionizing_flux file z save_Mstar w = (Raise (UnboundLocalError "srcpos_mpc"), w).
Proof.
  intros Hh5 Hdat Htxt.
  unfold ionizing_flux, stellar_mass_on_grid, read_haloes. run_monad.
  rewrite Hh5, Hdat, Htxt. reflexivity.
Qed.

Lemma ionizing_flux_unsupported_extension_witness :
  ionizing_flux "halos.csv" 8 None (Bench.new 0 0 Bench.dpl_sources)
  = (Raise (UnboundLocalError "srcpos_mpc"), Bench.new 0 0 Bench.dpl_sources).
Proof.
  apply (ionizing_flux_unsupported_extension "halos.csv" 8 None
           (Bench.new 0 0 Bench.dpl_sources)); reflexivity.
Defined.

(** ** Initialisation: edge cases *)

(** X7.  Resuming in a results directory that holds no output fails in
    [_redshift_init]: the minimum of an empty list of redshifts raises
    ValueError. *)
Theorem redshift_init_resume_without_outputs `{!External} (w : world) :
  truthy (resume (self w)) = true ->
  get_redshifts_from_output (results_basename (self w)) = [] ->
  fst (_redshift_init w) = Raise ValueError.
Proof.
  intros Hresume Hnone. unfold _redshift_init. run_monad.
  rewrite Hresume, Hnone. reflexivity.
Qed.

Lemma redshift_init_resume_without_outputs_witness :
  fst (@_redshift_init (Cases.dir [] ".dat") (Bench.new 0 1 Bench.dpl_sources))
  = Raise ValueError.
Proof.
  apply (@redshift_init_resume_without_outputs (Cases.dir [] ".dat")
           (Bench.new 0 1 Bench.dpl_sources)); reflexivity.
Defined.

Lemma material_init_resume_facts `{!External} (w w' : world) :
  truthy (resume (self w)) = true ->
  _material_init w = (Return tt, w') ->
  attrs (self w') !! "ndens"%string = Some PNone
  /\ (get_extension_in_folder (results_basename (self w)) <> ".dat"%string ->
      get_extension_in_folder (results_basename (self w)) <> ".npy"%string ->
      attrs (self w') !! "xh"%string = attrs (self w) !! "xh"%string
      /\ attrs (self w') !! "phi_ion"%string = attrs (self w) !! "phi_ion"%string).
Proof.
  intros Hresume Hrun. destruct_world w. cbn in Hresume.
  unfold _material_init, read_density in Hrun. run_monad_in Hrun.
  repeat (lookup_attrs_in Hrun; case_scrutinee_in Hrun; run_monad_in Hrun);
    try discriminate;
    injection Hrun as <-;
    cbn [self attrs results_basename].
  all: split; [simplify_map_eq; reflexivity|].
  all: intros Hdat Hnpy.
  all: try match goal with
           | H : String.eqb _ _ = true |- _ => apply String.eqb_eq in H; contradiction
           end.
  all: split; simplify_map_eq; reflexivity.
Qed.

(** X8.  On resume, an extension of the results directory that is neither
    [.dat] nor [.npy] is not refused: no branch is taken, and a
    [_material_init] that returns has left [xh] and [phi_ion] as they were
    (unbound on a new object). *)
Theorem material_init_resume_unknown_extension `{!External} (w w' : world) :
  truthy (resume (self w)) = true ->
  get_extension_in_folder (results_basename (self w)) <> ".dat"%string ->
  get_extension_in_folder (results_basename (self w)) <> ".npy"%string ->
  _material_init w = (Return tt, w') ->
  attrs (self w') !! "xh"%string = attrs (self w) !! "xh"%string
  /\ attrs (self w') !! "phi_ion"%string = attrs (self w) !! "phi_ion"%string.
Proof.
  intros Hresume Hdat Hnpy Hrun.
  destruct (material_init_resume_facts w w' Hresume Hrun) as [_ Hkeep]. auto.
Qed.

Lemma material_init_resume_unknown_extension_witness :
  let E := Cases.dir [8] ".h5" in
  let w := Bench.after (@_redshift_init E) (Bench.new 0 1 Bench.dpl_sources) in
  let w' := Bench.after (@_material_init E) w in
  attrs (self w') !! "xh"%string = attrs (self w) !! "xh"%string
  /\ attrs (self w') !! "phi_ion"%string = attrs (self w) !! "phi_ion"%string.
Proof.
  apply (@material_init_resume_unknown_extension (Cases.dir [8] ".h5")
           (Bench.after (@_redshift_init (Cases.dir [8] ".h5"))
                        (Bench.new 0 1 Bench.dpl_sources))
           (Bench.after (@_material_init (Cases.dir [8] ".h5"))
              (Bench.after (@_redshift_init (Cases.dir [8] ".h5"))
                           (Bench.new 0 1 Bench.dpl_sources)))).
  - reflexivity.
  - discriminate.
  - discriminate.
  - vm_compute. reflexivity.
Defined.

Ltac lookup_attrs :=
  repeat (rewrite lookup_insert_eq || rewrite lookup_insert_ne by discriminate).

Lemma fresh_startup_run `{!External} (w : world) (m : gmap string value)
      (xh0 temp0 avg_dens : Q) :
  truthy (resume (self w)) = false ->
  _ld (self w) !! "Material"%string = Some m ->
  m !! "xh0"%string = Some (VNum xh0) ->
  m !! "temp0"%string = Some (VNum temp0) ->
  m !! "avg_dens"%string = Some (VNum avg_dens) ->
  exists w',
    (_redshift_init;; _material_init) w = (Return tt, w')
    /\ attrs (self w')
       = <["phi_ion" := PArr (length (heap w) + 3)]> (
         <["temp" := PArr (length (heap w) + 2)]> (
         <["xh" := PArr (length (heap w) + 1)]> (
         <["ndens" := PArr (length (heap w))]> (
         <["time" := PVal (VNum (zred2time (zred_0 (self w))))]> (
         <["zred" := PVal (VNum (zred_0 (self w)))]> (
         <["prev_zsourc" := PVal (VNum (-1))]> (
         <["prev_zdens" := PVal (VNum (-1))]> (
         <["zred_sources" :=
             PTable (np_loadtxt (sources_basename (self w) +:+ "redshift_sources.txt"))]> (
         <["zred_density" :=
             PTable (np_loadtxt (density_basename (self w) +:+ "redshift_density.txt"))]>
           (attrs (self w)))))))))))
    /\ heap w' = heap w ++ [map (Qmult avg_dens) (np_empty (shape (self w)));
                            map (Qmult xh0) (np_ones (shape (self w)));
                            map (Qmult temp0) (np_ones (shape (self w)));
                            np_zeros (shape (self w))]
    /\ stdout w' = stdout w
    /\ _ld (self w') = _ld (self w) /\ rank (self w') = rank (self w).
Proof.
  intros Hfresh Hmat Hxh Htemp Havg.
  unfold _redshift_init, _material_init. run_monad.
  repeat (first [rewrite Hfresh | rewrite Hmat | rewrite Hxh | rewrite Htemp | rewrite Havg
                | progress lookup_attrs]; run_monad).
  eexists. split; [reflexivity|]. cbn [self attrs heap stdout _ld rank].
  rewrite !length_app. cbn [length].
  replace (length (heap w) + 1 + 1)%nat with (length (heap w) + 2)%nat by lia.
  replace (length (heap w) + 2 + 1)%nat with (length (heap w) + 3)%nat by lia.
  rewrite <- !app_assoc. cbn [app]. auto.
Qed.

(** X9.  A fresh start with a complete [Material] section never fails and
    logs nothing: [_redshift_init] then [_material_init] set the redshift to
    [zred_0], the time to [zred2time(zred_0)] and both previous-redshift
    markers to [-1], and add exactly four new arrays at the end of the heap,
    bound in this order to [ndens], [xh], [temp] and [phi_ion]; the arrays
    that existed are not touched and no two fields share an array. *)
Theorem fresh_startup `{!External} (w : world) (m : gmap string value)
        (xh0 temp0 avg_dens : Q) :
  truthy (resume (self w)) = false ->
  _ld (self w) !! "Material"%string = Some m ->
  m !! "xh0"%string = Some (VNum xh0) ->
  m !! "temp0"%string = Some (VNum temp0) ->
  m !! "avg_dens"%string = Some (VNum avg_dens) ->
  exists w',
    (_redshift_init;; _material_init) w = (Return tt, w')
    /\ stdout w' = stdout w
    /\ attrs (self w') !! "zred"%string = Some (PVal (VNum (zred_0 (self w))))
    /\ attrs (self w') !! "time"%string
       = Some (PVal (VNum (zred2time (zred_0 (self w)))))
    /\ attrs (self w') !! "prev_zdens"%string = Some (PVal (VNum (-1)))
    /\ attrs (self w') !! "prev_zsourc"%string = Some (PVal (VNum (-1)))
    /\ attrs (self w') !! "ndens"%string = Some (PArr (length (heap w)))
    /\ attrs (self w') !! "xh"%string = Some (PArr (length (heap w) + 1))
    /\ attrs (self w') !! "temp"%string = Some (PArr (length (heap w) + 2))
    /\ attrs (self w') !! "phi_ion"%string = Some (PArr (length (heap w) + 3))
    /\ heap w' = heap w ++ [map (Qmult avg_dens) (np_empty (shape (self w)));
                            map (Qmult xh0) (np_ones (shape (self w)));
                            map (Qmult temp0) (np_ones (shape (self w)));
                            np_zeros (shape (self w))].
Proof.
  intros Hfresh Hmat Hxh Htemp Havg.
  destruct (fresh_startup_run w m xh0 temp0 avg_dens Hfresh Hmat Hxh Htemp Havg)
    as (w' & Hrun & Hattrs & Hheap & Hout & _).
  exists w'. split; [exact Hrun|]. split; [exact Hout|].
  rewrite Hattrs. repeat (split; [simplify_map_eq; reflexivity|]). exact Hheap.
Qed.

Lemma fresh_startup_witness :
  let w := Bench.new 0 0 Bench.dpl_sources in
  exists w',
    (_redshift_init;; _material_init) w = (Return tt, w')
    /\ stdout w' = stdout w
    /\ attrs (self w') !! "zred"%string = Some (PVal (VNum 12))
    /\ attrs (self w') !! "time"%string = Some (PVal (VNum (zred2time 12)))
    /\ attrs (self w') !! "prev_zdens"%string = Some (PVal (VNum (-1)))
    /\ attrs (self w') !! "prev_zsourc"%string = Some (PVal (VNum (-1)))
    /\ attrs (self w') !! "ndens"%string = Some (PArr 0)
    /\ attrs (self w') !! "xh"%string = Some (PArr (0 + 1))
    /\ attrs (self w') !! "temp"%string = Some (PArr (0 + 2))
    /\ attrs (self w') !! "phi_ion"%string = Some (PArr (0 + 3))
    /\ heap w' = [] ++ [map (Qmult (1 # 10000000)) (np_empty [2; 1; 1]%nat);
                        map (Qmult (1 # 1000)) (np_ones [2; 1; 1]%nat);
                        map (Qmult 10000) (np_ones [2; 1; 1]%nat);
                        np_zeros [2; 1; 1]%nat].
Proof.
  apply (fresh_startup (Bench.new 0 0 Bench.dpl_sources) Bench.material_section
           (1 # 1000) 10000 (1 # 10000000)); vm_compute; reflexivity.
Defined.

(** X10.  [_material_init] reads the three parameters of a fresh start
    before it builds any array: when the [Material] section lacks [xh0],
    [temp0] or [avg_dens], the call raises KeyError and leaves the object,
    the heap and the log exactly as they were. *)
Theorem material_init_missing_key `{!External} (w : world) (m : gmap string value) :
  truthy (resume (self w)) = false ->
  _ld (self w) !! "Material"%string = Some m ->
  m !! "xh0"%string = None \/ m !! "temp0"%string = None
  \/ m !! "avg_dens"%string = None ->
  exists key, _material_init w = (Raise (KeyError key), w)
              /\ m !! key = None.
Proof.
  intros Hfresh Hmat Hmissing.
  unfold _material_init. run_monad. rewrite Hfresh. run_monad.
  repeat (rewrite Hmat; run_monad).
  destruct (m !! "xh0"%string) as [vx|] eqn:Ex; run_monad;
    [|exists "xh0"%string; auto].
  repeat (rewrite Hmat; run_monad).
  destruct (m !! "temp0"%string) as [vt|] eqn:Et; run_monad;
    [|exists "temp0"%string; auto].
  repeat (rewrite Hmat; run_monad).
  destruct (m !! "avg_dens"%string) as [va|] eqn:Ea; run_monad;
    [|exists "avg_dens"%string; auto].
  destruct Hmissing as [Hm|[Hm|Hm]]; discriminate Hm.
Qed.

Lemma material_init_missing_key_witness :
  exists key, _material_init Cases.no_temp0 = (Raise (KeyError key), Cases.no_temp0)
              /\ (list_to_map [ ("xh0", VNum (1 # 1000)); ("avg_dens", VNum 1) ]%string
                  : gmap string value) !! key = None.
Proof.
  apply (material_init_missing_key Cases.no_temp0
           (list_to_map [ ("xh0", VNum (1 # 1000)); ("avg_dens", VNum 1) ]%string)).
  - reflexivity.
  - vm_compute. reflexivity.
  - right. left. vm_compute. reflexivity.
Defined.

(** ** The clumping factor and the other fields *)

Lemma read_clumping_Return `{!External} (parfile : string) (z : Q) (w w' : world)
      (clump : list Q) :
  read_clumping parfile z w = (Return clump, w') ->
  self w' = self w
  /\ exists l nd,
       attrs (self w) !! "ndens"%string = Some (PArr l)
       /\ heap w !! l = Some nd
       /\ length clump = length nd
       /\ heap w' = <[l := zip_with Qmult nd clump]> (heap w).
Proof.
  intros Hrun. destruct_world w.
  unfold read_clumping in Hrun.
  destruct (find_bins z (Arr1 (map fst (pd_read_csv parfile)))) as [e|[zlow zhigh]];
    run_monad_in Hrun; [discriminate Hrun|].
  repeat (case_scrutinee_in Hrun; run_monad_in Hrun); try discriminate Hrun.
  all: injection Hrun as <- <-; simplify_eq; cbn [self attrs heap].
  all: split; [reflexivity|].
  all: eexists _, _; split; [eassumption|]; split; [eassumption|].
  all: split; [rewrite !length_map; reflexivity | reflexivity].
Qed.

(** X11.  When [read_clumping] returns, it has changed one array of the
    heap and nothing else of the object: the array bound to [self.ndens],
    which keeps its length; the returned clumping factor has one value per
    cell of the density; every other array, the number of arrays and all
    attributes are as before. *)
Theorem read_clumping_frame `{!External} (parfile : string) (z : Q) (w w' : world)
        (clump : list Q) :
  read_clumping parfile z w = (Return clump, w') ->
  self w' = self w
  /\ length (heap w') = length (heap w)
  /\ exists l nd nd',
       attrs (self w) !! "ndens"%string = Some (PArr l)
       /\ heap w !! l = Some nd /\ heap w' !! l = Some nd'
       /\ length nd' = length nd /\ length clump = length nd
       /\ forall l', l' <> l -> heap w' !! l' = heap w !! l'.
Proof.
  intros Hrun.
  destruct (read_clumping_Return parfile z w w' clump Hrun)
    as (Hself & l & nd & Hattr & Hnd & Hlen & Hheap).
  split; [exact Hself|]. rewrite Hheap.
  split; [apply length_insert|].
  exists l, nd, (zip_with Qmult nd clump).
  split; [exact Hattr|]. split; [exact Hnd|].
  split; [apply list_lookup_insert_eq; eapply lookup_lt_Some; eassumption|].
  split; [rewrite length_zip_with; lia|].
  split; [exact Hlen|].
  intros l' Hne. apply list_lookup_insert_ne. congruence.
Qed.

Lemma read_clumping_frame_witness :
  let w' := Bench.after (read_clumping "clumping.csv" 7) Bench.gridded in
  self w' = self Bench.gridded /\ length (heap w') = length (heap Bench.gridded).
Proof.
  edestruct (read_clumping_frame "clumping.csv" 7 Bench.gridded
               (Bench.after (read_clumping "clumping.csv" 7) Bench.gridded))
    as (Hself & Hlen & _).
  - vm_compute. reflexivity.
  - split; [exact Hself | exact Hlen].
Defined.

(** X12.  After a resumed [_material_init] that returned, [read_clumping]
    cannot run: [self.ndens] is [None], and whatever the parameter file and
    the redshift the call raises. *)
Theorem read_clumping_after_resume `{!External} (w w' : world) :
  truthy (resume (self w)) = true ->
  _material_init w = (Return tt, w') ->
  forall parfile z, exists e, fst (read_clumping parfile z w') = Raise e.
Proof.
  intros Hresume Hinit parfile z.
  destruct (material_init_resume_facts w w' Hresume Hinit) as [Hnone _].
  destruct (read_clumping parfile z w') as [[e|clump] w''] eqn:Hrun; [eauto|].
  destruct (read_clumping_Return parfile z w' w'' clump Hrun)
    as (_ & l & nd & Hattr & _).
  rewrite Hnone in Hattr. discriminate Hattr.
Qed.

Lemma read_clumping_after_resume_witness :
  exists e,
    fst (read_clumping "clumping.csv" 7
           (Bench.after _material_init
              (Bench.after _redshift_init (Bench.new 0 1 Bench.dpl_sources))))
    = Raise e.
Proof.
  apply (read_clumping_after_resume
           (Bench.after _redshift_init (Bench.new 0 1 Bench.dpl_sources))
           (Bench.after _material_init
              (Bench.after _redshift_init (Bench.new 0 1 Bench.dpl_sources)))).
  - reflexivity.
  - vm_compute. reflexivity.
Defined.

(** X13.  After a fresh start, a [read_clumping] that returns has changed
    the density array only: [xh], [temp] and [phi_ion] are still bound to
    the arrays the start-up built, which hold [xh0], [temp0] and [0]. *)
Theorem read_clumping_after_fresh_startup `{!External} (w w1 w2 : world)
        (m : gmap string value) (xh0 temp0 avg_dens : Q) (parfile : string) (z : Q)
        (clump : list Q) :
  truthy (resume (self w)) = false ->
  _ld (self w) !! "Material"%string = Some m ->
  m !! "xh0"%string = Some (VNum xh0) ->
  m !! "temp0"%string = Some (VNum temp0) ->
  m !! "avg_dens"%string = Some (VNum avg_dens) ->
  (_redshift_init;; _material_init) w = (Return tt, w1) ->
  read_clumping parfile z w1 = (Return clump, w2) ->
  attrs (self w2) !! "xh"%string = Some (PArr (length (heap w) + 1))
  /\ heap w2 !! (length (heap w) + 1)%nat = Some (map (Qmult xh0) (np_ones (shape (self w))))
  /\ attrs (self w2) !! "temp"%string = Some (PArr (length (heap w) + 2))
  /\ heap w2 !! (length (heap w) + 2)%nat = Some (map (Qmult temp0) (np_ones (shape (self w))))
  /\ attrs (self w2) !! "phi_ion"%string = Some (PArr (length (heap w) + 3))
  /\ heap w2 !! (length (heap w) + 3)%nat = Some (np_zeros (shape (self w)))
  /\ attrs (self w2) !! "ndens"%string = Some (PArr (length (heap w)))
  /\ heap w2 !! length (heap w)
     = Some (zip_with Qmult (map (Qmult avg_dens) (np_empty (shape (self w)))) clump).
Proof.
  intros Hfresh Hmat Hxh Htemp Havg Hinit Hclump.
  destruct (fresh_startup_run w m xh0 temp0 avg_dens Hfresh Hmat Hxh Htemp Havg)
    as (w1' & Hrun & Hattrs & Hheap & _).
  rewrite Hinit in Hrun. injection Hrun as <-.
  destruct (read_clumping_Return parfile z w1 w2 clump Hclump)
    as (Hself & l & nd & Hattr & Hnd & _ & Hheap2).
  rewrite Hattrs in Hattr. simplify_map_eq.
  rewrite Hself, Hattrs, Hheap2, Hheap.
  rewrite Hheap in Hnd.
  rewrite lookup_app_r in Hnd by lia. rewrite Nat.sub_diag in Hnd. simpl in Hnd.
  injection Hnd as <-.
  repeat split; try (simplify_map_eq; reflexivity).
  - rewrite list_lookup_insert_ne by lia.
    rewrite lookup_app_r by lia.
    replace (length (heap w) + 1 - length (heap w))%nat with 1%nat by lia. reflexivity.
  - rewrite list_lookup_insert_ne by lia.
    rewrite lookup_app_r by lia.
    replace (length (heap w) + 2 - length (heap w))%nat with 2%nat by lia. reflexivity.
  - rewrite list_lookup_insert_ne by lia.
    rewrite lookup_app_r by lia.
    replace (length (heap w) + 3 - length (heap w))%nat with 3%nat by lia. reflexivity.
  - apply list_lookup_insert_eq. rewrite length_app. simpl. lia.
Qed.

Lemma read_clumping_after_fresh_startup_witness :
  let w := Bench.new 0 0 Bench.dpl_sources in
  let w2 := Bench.after (read_clumping "clumping.csv" 7)
                        (Bench.after (_redshift_init;; _material_init) w) in
  attrs (self w2) !! "xh"%string = Some (PArr (0 + 1))
  /\ heap w2 !! (0 + 1)%nat = Some (map (Qmult (1 # 1000)) (np_ones [2; 1; 1]%nat)).
Proof.
  edestruct (read_clumping_after_fresh_startup (Bench.new 0 0 Bench.dpl_sources)
               (Bench.after (_redshift_init;; _material_init)
                            (Bench.new 0 0 Bench.dpl_sources))
               (Bench.after (read_clumping "clumping.csv" 7)
                  (Bench.after (_redshift_init;; _material_init)
                               (Bench.new 0 0 Bench.dpl_sources)))
               Bench.material_section (1 # 1000) 10000 (1 # 10000000) "clumping.csv" 7)
    as (Hxh & Hxh_arr & _).
  1-5: vm_compute; reflexivity.
  - vm_compute. reflexivity.
  - vm_compute. reflexivity.
  - split; [exact Hxh | exact Hxh_arr].
Defined.

(** ** Totals through the pipeline *)

Lemma np_sum_scaled (k d : Q) (xs : list Q) :
  np_sum (map (fun m => k * m / d) xs) == k * np_sum xs / d.
Proof.
  induction xs as [|x xs IH]; simpl.
  - unfold Qdiv. ring.
  - rewrite IH. unfold Qdiv. ring.
Qed.

Lemma normalize_flux_Some `{!External} (file : string) (z : Q) (srcpos : list (list Z))
      (srcmstar : list Q) (w w' : world) (x : list (list Z) * list Q) :
  normalize_flux file z srcpos srcmstar w = (Return (Some x), w') ->
  exists alph d nion,
    attrs (self w) !! "alph_h"%string = Some (PVal (VNum alph))
    /\ attrs (self w) !! "fstar_dpl"%string = Some (PDict d)
    /\ d !! "Nion"%string = Some (VNum nion)
    /\ x = (srcpos,
            map (fun m => msun2g * nion * m
                          / (m_p * (1 / (alph * (1 + z) * cosmo_H (cosmology (self w)) z))
                             * S_star_ref))
                srcmstar).
Proof.
  intros Hrun. destruct_world w.
  unfold normalize_flux in Hrun. run_monad_in Hrun.
  repeat (case_scrutinee_in Hrun; run_monad_in Hrun); try discriminate Hrun.
  injection Hrun as <- <-. simplify_eq. cbn [self attrs cosmology].
  eexists _, _, _. repeat split; eassumption.
Qed.

(** X14.  When [ionizing_flux] returns a pair, the cells are those of the
    gridded stellar mass, there is one flux per cell, and the fluxes add up
    to the total gridded stellar mass times the factor of the
    normalisation: [sum(normflux) = msun2g * Nion * sum(srcmstar)
    / (m_p * ts * 1e48)]. *)
Theorem ionizing_flux_total_flux `{!External} (file : string) (z : Q)
        (save_Mstar : option string) (w : world)
        (srcpos : list (list Z)) (normflux : list Q) :
  fst (ionizing_flux file z save_Mstar w) = Return (Some (srcpos, normflux)) ->
  exists srcmstar alph d nion,
    fst (stellar_mass_on_grid file w) = Return (srcpos, srcmstar)
    /\ attrs (self w) !! "alph_h"%string = Some (PVal (VNum alph))
    /\ attrs (self w) !! "fstar_dpl"%string = Some (PDict d)
    /\ d !! "Nion"%string = Some (VNum nion)
    /\ length normflux = length srcmstar
    /\ np_sum normflux
       == msun2g * nion * np_sum srcmstar
          / (m_p * (1 / (alph * (1 + z) * cosmo_H (cosmology (self w)) z)) * S_star_ref).
Proof.
  intros Hrun.
  apply ionizing_flux_stages in Hrun
    as (sp & srcmstar & w1 & w2 & w3 & Egrid & _ & Hself2 & Enorm).
  apply normalize_flux_Some in Enorm as (alph & d & nion & Halph & Hdpl & Hnion & Hx).
  rewrite Hself2 in Halph, Hdpl, Hx. injection Hx as <- ->.
  exists srcmstar, alph, d, nion.
  split; [rewrite Egrid; reflexivity|]. split; [exact Halph|]. split; [exact Hdpl|].
  split; [exact Hnion|]. split; [apply length_map|].
  apply np_sum_scaled.
Qed.

Lemma ionizing_flux_total_flux_witness :
  let w := Bench.after _sources_init (Bench.new 0 0 Bench.dpl_sources) in
  exists srcmstar alph d nion,
    fst (stellar_mass_on_grid "halos.txt" w) = Return ([[0; 0; 0]; [0; 3; 3]]%Z, srcmstar)
    /\ attrs (self w) !! "alph_h"%string = Some (PVal (VNum alph))
    /\ attrs (self w) !! "fstar_dpl"%string = Some (PDict d)
    /\ d !! "Nion"%string = Some (VNum nion)
    /\ length (map (fun m => msun2g * 2000 * m
                             / (m_p * (1 / ((3 # 4) * (1 + 8) * cosmo_H Bench.planck 8))
                                * inject_Z (10 ^ 48)))
                   [20000 # 50; 40000 # 50])
       = length srcmstar
    /\ np_sum (map (fun m => msun2g * 2000 * m
                             / (m_p * (1 / ((3 # 4) * (1 + 8) * cosmo_H Bench.planck 8))
                                * inject_Z (10 ^ 48)))
                   [20000 # 50; 40000 # 50])
       == msun2g * nion * np_sum srcmstar
          / (m_p * (1 / (alph * (1 + 8) * cosmo_H (cosmology (self w)) 8)) * S_star_ref).
Proof.
  apply (ionizing_flux_total_flux "halos.txt" 8 None
           (Bench.after _sources_init (Bench.new 0 0 Bench.dpl_sources))).
  vm_compute. reflexivity.
Defined.

(** ** From the parameter file to the model *)

Ltac eval_str_in :=
  repeat match goal with
         | |- context [str_in ?a ?b] =>
             let v := eval vm_compute in (str_in a b) in
             change (str_in a b) with v
         end.

(** X15.  With [fstar_kind: dpl] in the parameter file, an [_sources_init]
    that returns leaves an object on which [fstar_model] succeeds for every
    array of masses and changes nothing: the [SourceModel] it builds holds
    for each of its eleven keywords the value configured under that name in
    the [Sources] section, and [alph_h] holds the configured [alpha_h]. *)
Theorem sources_init_then_fstar_model `{!External} (w w' : world)
        (src : gmap string value) (mhalo : list Q) :
  _ld (self w) !! "Sources"%string = Some src ->
  src !! "fstar_kind"%string = Some (VStr "dpl") ->
  _sources_init w = (Return tt, w') ->
  exists model,
    fstar_model mhalo w'
    = (Return (Arr (f_star_deterministic model mhalo),
               Arr (f_esc_deterministic model mhalo)), w')
    /\ src !! "Nion"%string = Some (SM.Nion model)
    /\ src !! "f0"%string = Some (SM.f0 model)
    /\ src !! "Mt"%string = Some (SM.Mt model)
    /\ src !! "Mp"%string = Some (SM.Mp model)
    /\ src !! "g1"%string = Some (SM.g1 model)
    /\ src !! "g2"%string = Some (SM.g2 model)
    /\ src !! "g3"%string = Some (SM.g3 model)
    /\ src !! "g4"%string = Some (SM.g4 model)
    /\ src !! "f0_esc"%string = Some (SM.f0_esc model)
    /\ src !! "Mp_esc"%string = Some (SM.Mp_esc model)
    /\ src !! "al_esc"%string = Some (SM.al_esc model)
    /\ PVal <$> src !! "alpha_h"%string = attrs (self w') !! "alph_h"%string.
Proof.
  intros Hsrc Hkind Hrun. destruct_world w. cbn [self _ld] in Hsrc.
  unfold _sources_init, fmt_float in Hrun. run_monad_in Hrun.
  rewrite Hsrc in Hrun. run_monad_in Hrun.
  rewrite Hkind in Hrun. run_monad_in Hrun.
  change (value_eq_str (VStr "dpl") "fgamma") with false in Hrun.
  change (value_eq_str (VStr "dpl") "dpl") with true in Hrun.
  run_monad_in Hrun.
  repeat (case_scrutinee_in Hrun; run_monad_in Hrun); try discriminate Hrun.
  all: injection Hrun as <-.
  all: simplify_eq.
  all: eexists {| SM.Nion := _ |}.
  all: split;
    [ unfold fstar_model, fstar_model_locals; run_monad; lookup_attrs; run_monad;
      eval_str_in; run_monad; lookup_attrs; run_monad; reflexivity |].
  all: cbn [SM.Nion SM.f0 SM.Mt SM.Mp SM.g1 SM.g2 SM.g3 SM.g4 SM.f0_esc SM.Mp_esc
            SM.al_esc self attrs].
  all: repeat (split; [assumption|]).
  all: match goal with H : _ !! "alpha_h"%string = _ |- _ => rewrite H end.
  all: simplify_map_eq; reflexivity.
Qed.

Lemma sources_init_then_fstar_model_witness :
  let w' := Bench.after _sources_init (Bench.new 0 0 Bench.dpl_sources) in
  exists model,
    fstar_model [10000; 20000] w'
    = (Return (Arr (f_star_deterministic model [10000; 20000]),
               Arr (f_esc_deterministic model [10000; 20000])), w')
    /\ Bench.dpl_sources !! "Nion"%string = Some (SM.Nion model)
    /\ Bench.dpl_sources !! "f0"%string = Some (SM.f0 model)
    /\ Bench.dpl_sources !! "Mt"%string = Some (SM.Mt model)
    /\ Bench.dpl_sources !! "Mp"%string = Some (SM.Mp model)
    /\ Bench.dpl_sources !! "g1"%string = Some (SM.g1 model)
    /\ Bench.dpl_sources !! "g2"%string = Some (SM.g2 model)
    /\ Bench.dpl_sources !! "g3"%string = Some (SM.g3 model)
    /\ Bench.dpl_sources !! "g4"%string = Some (SM.g4 model)
    /\ Bench.dpl_sources !! "f0_esc"%string = Some (SM.f0_esc model)
    /\ Bench.dpl_sources !! "Mp_esc"%string = Some (SM.Mp_esc model)
    /\ Bench.dpl_sources !! "al_esc"%string = Some (SM.al_esc model)
    /\ PVal <$> Bench.dpl_sources !! "alpha_h"%string
       = attrs (self w') !! "alph_h"%string.
Proof.
  apply (sources_init_then_fstar_model (Bench.new 0 0 Bench.dpl_sources)
           (Bench.after _sources_init (Bench.new 0 0 Bench.dpl_sources))
           Bench.dpl_sources [10000; 20000]); vm_compute; reflexivity.
Defined.

(** ** Reading the density *)

(** X16.  [read_density] binds [self.ndens] to a new array, the last of the
    heap, before it reports: the binding and the array are there whether the
    call returns or raises.  The call returns [None] and nothing else; it
    raises only on rank 0 and only when the density field is empty
    ([min] of an array of size zero), and off rank 0 it logs nothing. *)
Theorem read_density_binds_then_reports `{!External} (fbase : string) (z : Q) (w : world) :
  let c := cosmology (self w) in
  let nd := map (fun d => critical_density0 c * Ob0 c * (1 + d)
                          / (mean_molecular (self w) * m_p) * (1 + z) ^ 3)
                (load_density_field (boxsize (self w)) (Nmesh (self w)) (Om0 c)
                   (density_basename (self w) +:+ fbase)) in
  let run := read_density fbase z w in
  attrs (self (snd run)) !! "ndens"%string = Some (PArr (length (heap w)))
  /\ heap (snd run) = heap w ++ [nd]
  /\ (fst run = Return PNone
      \/ (rank (self w) = 0%Z /\ nd = [] /\ fst run = Raise ValueError))
  /\ (rank (self w) <> 0%Z -> fst run = Return PNone /\ stdout (snd run) = stdout w).
Proof.
  intros c nd run. subst run. unfold read_density. run_monad.
  fold c. fold nd.
  destruct (Z.eqb (rank (self w)) 0) eqn:Erank; run_monad.
  - apply Z.eqb_eq in Erank.
    rewrite lookup_insert_eq. run_monad. rewrite lookup_snoc. run_monad.
    destruct nd as [|x rest] eqn:End; cbn [np_min np_max]; run_monad.
    + rewrite lookup_insert_eq. repeat split; auto; contradiction.
    + rewrite lookup_insert_eq. repeat split; auto; contradiction.
  - apply Z.eqb_neq in Erank.
    rewrite lookup_insert_eq. repeat split; auto.
Qed.

(** ** Saving the sources *)

(** X17.  The sources are saved before the normalisation and on every
    rank: when the catalog is gridded into [(srcpos, srcmstar)] and
    [save_Mstar] names a folder, the output of [ionizing_flux] holds the
    HDF5 file [<folder>/<z:.3f>-Mstar_sources.hdf5] with these positions and
    masses, [z], [h] and the number of sources, whatever the rank and
    whether the normalisation that follows returns or raises. *)
Theorem ionizing_flux_saves_on_every_rank `{!External} (file : string) (z : Q)
        (folder : string) (w : world) (srcpos : list (list Z)) (srcmstar : list Q) :
  folder <> ""%string ->
  fst (stellar_mass_on_grid file w) = Return (srcpos, srcmstar) ->
  Hdf5File (folder +:+ "/" +:+ fmt_3f z +:+ "-Mstar_sources.hdf5") srcpos srcmstar z
           (cosmo_h (cosmology (self w))) (length srcmstar)
  ∈ stdout (snd (ionizing_flux file z (Some folder) w)).
Proof.
  intros Hfolder Hgrid. unfold ionizing_flux. rewrite bind_unfold.
  pose proof (logs_only_stellar_mass_on_grid file w) as (Hself & _).
  destruct (stellar_mass_on_grid file w) as [[e|grid] w1]; simpl in Hgrid; [discriminate|].
  injection Hgrid as ->. cbn [snd] in Hself. cbv beta iota. rewrite bind_unfold.
  pose proof (logs_only_normalize_flux file z srcpos srcmstar) as Hnorm.
  assert (Hsave : exists w2,
             save_sources (Some folder) z srcpos srcmstar w1 = (Return tt, w2)
             /\ Hdf5File (folder +:+ "/" +:+ fmt_3f z +:+ "-Mstar_sources.hdf5") srcpos
                         srcmstar z (cosmo_h (cosmology (self w))) (length srcmstar)
                ∈ stdout w2).
  { unfold save_sources. run_monad. rewrite Hself.
    destruct folder as [|a folder']; [contradiction|].
    destruct (os_path_exists (String a folder')); run_monad;
      eexists; (split; [reflexivity|]); cbn [stdout];
      apply elem_of_app; right; apply elem_of_cons; left; reflexivity. }
  destruct Hsave as (w2 & -> & Hin).
  destruct (Hnorm w2) as (_ & _ & out & ->).
  apply elem_of_app. left. exact Hin.
Qed.

Lemma ionizing_flux_saves_on_every_rank_witness :
  Hdf5File "saved/8.000-Mstar_sources.hdf5" [[0; 0; 0]; [0; 3; 3]]%Z [20000 # 50; 40000 # 50]
           8 (1 # 2) 2
  ∈ stdout (snd (ionizing_flux "halos.txt" 8 (Some "saved"%string)
                   (Bench.after _sources_init (Bench.new 3 0 Bench.dpl_sources)))).
Proof.
  assert (Hgrid : fst (stellar_mass_on_grid "halos.txt"
                         (Bench.after _sources_init (Bench.new 3 0 Bench.dpl_sources)))
                   = Return ([[0; 0; 0]; [0; 3; 3]]%Z, [20000 # 50; 40000 # 50]))
    by (vm_compute; reflexivity).
  pose proof (ionizing_flux_saves_on_every_rank "halos.txt" 8 "saved"
                (Bench.after _sources_init (Bench.new 3 0 Bench.dpl_sources))
                [[0; 0; 0]; [0; 3; 3]]%Z [20000 # 50; 40000 # 50]
                ltac:(discriminate) Hgrid) as Hin.
  vm_compute in Hin. vm_compute. exact Hin.
Defined.

(** ** A kind that is not implemented *)

(** X18.  When the lowered [fstar_kind] is in neither list of
    [fstar_model], the method prints that the model is not implemented and
    goes on to its [return], which raises UnboundLocalError for [fstar]:
    the print is the only trace, and [ionizing_flux] on a readable catalog
    fails the same way, having saved nothing. *)
Theorem fstar_model_unknown_kind `{!External} (mhalo : list Q) (w : world) (kind : string)
        (file : string) (z : Q) (save_Mstar : option string)
        (pos : list (list Q)) (mass : list Q) :
  attrs (self w) !! "fstar_kind"%string = Some (PVal (VStr kind)) ->
  str_in (lower kind) ["fgamma"; "f_gamma"; "mass_independent"]%string = false ->
  str_in (lower kind) ["dpl"; "mass_dependent"]%string = false ->
  let w' := {| self := self w; heap := heap w;
               stdout := stdout w ++ [Printed "{kind} fstar model is not implemented."
                                              [LPy (PVal (VStr kind))]] |} in
  fstar_model mhalo w = (Raise (UnboundLocalError "fstar"), w')
  /\ (fst (read_haloes (sources_basename (self w) +:+ file) (boxsize (self w)) w)
      = Return (pos, mass) ->
      ionizing_flux file z save_Mstar w = (Raise (UnboundLocalError "fstar"), w')).
Proof.
  intros Hkind Hno1 Hno2 w'.
  assert (Hmodel : forall mh, fstar_model mh w = (Raise (UnboundLocalError "fstar"), w')).
  { intros mh. unfold fstar_model, fstar_model_locals. run_monad.
    rewrite Hkind. run_monad. rewrite Hno1, Hno2. reflexivity. }
  split; [apply Hmodel|].
  intros Hread.
  assert (Hgrid : stellar_mass_on_grid file w = (Raise (UnboundLocalError "fstar"), w')).
  { unfold stellar_mass_on_grid. rewrite bind_unfold. cbn [get_self].
    rewrite bind_unfold.
    pose proof (reads_read_haloes (fun _ => True) (sources_basename (self w) +:+ file)
                  (boxsize (self w)) "" ltac:(discriminate) w I) as Hw0.
    destruct (read_haloes _ _ w) as [[e|[pos' mass']] w0]; simpl in Hread; [discriminate|].
    subst w0. rewrite bind_unfold, Hmodel. reflexivity. }
  unfold ionizing_flux. rewrite bind_unfold, Hgrid. reflexivity.
Qed.

Lemma fstar_model_unknown_kind_witness :
  let w := Bench.after (setattr "fstar_kind" (PVal (VStr "Schechter")))
                       (Bench.new 0 0 Bench.dpl_sources) in
  let w' := {| self := self w; heap := heap w;
               stdout := stdout w ++ [Printed "{kind} fstar model is not implemented."
                                              [LPy (PVal (VStr "Schechter"))]] |} in
  fstar_model [10000; 20000] w = (Raise (UnboundLocalError "fstar"), w')
  /\ ionizing_flux "halos.txt" 8 None w = (Raise (UnboundLocalError "fstar"), w').
Proof.
  edestruct (fstar_model_unknown_kind [10000; 20000]
               (Bench.after (setattr "fstar_kind" (PVal (VStr "Schechter")))
                            (Bench.new 0 0 Bench.dpl_sources))
               "Schechter" "halos.txt" 8 None) as (Hmodel & Hflux).
  - reflexivity.
  - reflexivity.
  - reflexivity.
  - split; [exact Hmodel|]. apply Hflux. vm_compute. reflexivity.
Defined.
